(** * AI video caption generator: a shallow embedding of [app.py],
    [simple.py] and [low_lat.py], and the properties of its pipeline.

  The program is sequential glue around third-party libraries (moviepy,
  whisper, pydub, srt, numpy, streamlit).  The glue is embedded as it is
  written; every call into one of those libraries goes through a record of
  outcomes ([World]), so that theorems hold for whatever the libraries
  answer.  Python values that the code inspects (the transcription
  dictionary and its segments) are embedded as a small universe of Python
  values whose dictionaries are finite maps. *)

From Stdlib Require Import ZArith QArith Qround Ascii String List Lia Lqa.
From Stdlib Require Import DecimalString DecimalN.
From stdpp Require Import base option list strings gmap.

Local Open Scope Z_scope.
Local Open Scope string_scope.
Local Open Scope list_scope.

(** ** Python strings

  A [str] is embedded as a [string]; its characters stand for the code
  points below 256.  [str.strip()] and [str.split()] without arguments work
  on the characters for which [str.isspace] holds. *)

Module PyStr.

(** The code points below 256 on which [str.isspace()] is true:
    TAB, LF, VT, FF, CR, the separators FS, GS, RS, US, the space,
    NEL (U+0085) and the no-break space (U+00A0). *)
Definition isspace (c : ascii) : bool :=
  let n := nat_of_ascii c in
  ((9 <=? n)%nat && (n <=? 13)%nat)
  || ((28 <=? n)%nat && (n <=? 32)%nat)
  || (n =? 133)%nat || (n =? 160)%nat.

(** [s.lstrip()] *)
Fixpoint lstrip (s : string) : string :=
  match s with
  | EmptyString => EmptyString
  | String c r => if isspace c then lstrip r else s
  end.

(** [s.rstrip()] *)
Fixpoint rstrip (s : string) : string :=
  match s with
  | EmptyString => EmptyString
  | String c r =>
      match rstrip r with
      | EmptyString => if isspace c then EmptyString else String c EmptyString
      | r' => String c r'
      end
  end.

(** [s.strip()] *)
Definition strip (s : string) : string := rstrip (lstrip s).

(** [s.split()]: runs of whitespace separate the words, and no empty word
    is produced.  [cur] is the word being read, if any. *)
Fixpoint split_from (cur : option string) (s : string) : list string :=
  match s with
  | EmptyString => match cur with Some w => [w] | None => [] end
  | String c r =>
      if isspace c then
        match cur with
        | Some w => w :: split_from None r
        | None => split_from None r
        end
      else
        split_from (Some (default EmptyString cur +:+ String c EmptyString)) r
  end.

Definition split (s : string) : list string := split_from None s.

(** The count of whitespace-delimited tokens, read off the text itself: a
    token starts at every non-space character that is the first character
    or follows a space. *)
Fixpoint token_starts (after_space : bool) (s : string) : nat :=
  match s with
  | EmptyString => 0%nat
  | String c r =>
      if isspace c then token_starts true r
      else ((if after_space then 1 else 0) + token_starts false r)%nat
  end.

Definition count_tokens (s : string) : nat := token_starts true s.

(** A string without any whitespace character. *)
Fixpoint no_space (s : string) : bool :=
  match s with
  | EmptyString => true
  | String c r => negb (isspace c) && no_space r
  end.

End PyStr.

(** ** Python values, exceptions and time

  The transcription returned by whisper is a dictionary: ['text'] is the
  full text and ['segments'] a list of dictionaries with (among others)
  the keys ['start'], ['end'] and ['text'].  A number is embedded as the
  rational it denotes. *)

Set Warnings "-register-all".

Inductive pyval :=
| PNone
| PNum (q : Q)
| PStr (s : string)
| PList (l : list pyval)
| PDict (d : gmap string pyval).

(** An exception: its class and [str(e)]. *)
Record exn := Exn { exn_type : string; exn_msg : string }.

Inductive result (A : Type) :=
| Ok (a : A)
| Raise (e : exn).
Arguments Ok {A} a.
Arguments Raise {A} e.

Definition KeyError (k : string) : exn := Exn "KeyError" ("'" +:+ k +:+ "'").
Definition TypeError (m : string) : exn := Exn "TypeError" m.
Definition AttributeError (m : string) : exn := Exn "AttributeError" m.
Definition FileNotFoundError (p : string) : exn :=
Exn "FileNotFoundError" ("[Errno 2] No such file or directory: '" +:+ p +:+ "'").

Definition type_name (v : pyval) : string :=
match v with
| PNone => "NoneType" | PNum _ => "float" | PStr _ => "str"
| PList _ => "list" | PDict _ => "dict"
end.

Module Py.

(** [v[k]] for a string key [k] *)
Definition getitem (v : pyval) (k : string) : result pyval :=
  match v with
  | PDict d => match d !! k with Some x => Ok x | None => Raise (KeyError k) end
  | _ => Raise (TypeError ("'" +:+ type_name v +:+ "' object is not subscriptable by a str key"))
  end.

(** [v.get(k, dflt)] *)
Definition get (v : pyval) (k : string) (dflt : pyval) : result pyval :=
  match v with
  | PDict d => Ok (default dflt (d !! k))
  | _ => Raise (AttributeError ("'" +:+ type_name v +:+ "' object has no attribute 'get'"))
  end.

(** The items a [for] loop visits.  A dictionary yields its keys and a
    string its characters; the order of a dictionary's keys is the one of
    the finite map. *)
Definition iter (v : pyval) : result (list pyval) :=
  match v with
  | PList l => Ok l
  | PDict d => Ok (PStr <$> (map_to_list d).*1)
  | PStr s => Ok ((fun c => PStr (String c EmptyString)) <$> list_ascii_of_string s)
  | _ => Raise (TypeError ("'" +:+ type_name v +:+ "' object is not iterable"))
  end.

(** [len(v)] *)
Definition len (v : pyval) : result nat :=
  match v with
  | PList l => Ok (length l)
  | PDict d => Ok (size d)
  | PStr s => Ok (String.length s)
  | _ => Raise (TypeError ("object of type '" +:+ type_name v +:+ "' has no len()"))
  end.

(** [v.strip()] *)
Definition strip (v : pyval) : result string :=
  match v with
  | PStr s => Ok (PyStr.strip s)
  | _ => Raise (AttributeError ("'" +:+ type_name v +:+ "' object has no attribute 'strip'"))
  end.

(** [v.split()] *)
Definition split (v : pyval) : result (list string) :=
  match v with
  | PStr s => Ok (PyStr.split s)
  | _ => Raise (AttributeError ("'" +:+ type_name v +:+ "' object has no attribute 'split'"))
  end.

(** Truth value, as tested by [if v:] *)
Definition truthy (v : pyval) : bool :=
  match v with
  | PNone => false
  | PNum q => negb (Qeq_bool q 0)
  | PStr s => negb (String.eqb s EmptyString)
  | PList l => match l with [] => false | _ => true end
  | PDict d => negb (bool_decide (size d = 0%nat))
  end.

End Py.

(** A [datetime.timedelta] is a whole number of microseconds. *)
Definition timedelta : Type := Z.

(** Rounding to the nearest integer, ties to even. *)
Definition round_half_even (q : Q) : Z :=
let n := Qnum q in
let d := Z.pos (Qden q) in
let fl := n / d in
match 2 * (n mod d) ?= d with
| Lt => fl
| Gt => fl + 1
| Eq => if Z.even fl then fl else fl + 1
end.

(** [timedelta(seconds=v)]: the value is rounded to the nearest microsecond,
  ties to even; anything but a number is a [TypeError].  (The bound on
  the magnitude of a [timedelta], 999999999 days, is not modelled.) *)
Definition timedelta_of_seconds (q : Q) : timedelta :=
round_half_even (q * 1000000).

Definition timedelta_seconds (v : pyval) : result timedelta :=
match v with
| PNum q => Ok (timedelta_of_seconds q)
| _ => Raise (TypeError ("unsupported type for timedelta seconds component: " +:+ type_name v))
end.

(** [td.total_seconds()] *)
Definition total_seconds (td : timedelta) : Q := td # 1000000.

(** [srt.Subtitle] *)
Record Subtitle := mkSubtitle {
sub_index : Z;
sub_start : timedelta;
sub_end : timedelta;
sub_content : string
}.

(** ** The libraries the program calls

    Values of the libraries are records of what the program reads from them;
    what a library call answers is a field of [World]. *)

(** A [moviepy.VideoFileClip]: its audio track (if any), frame rate,
    duration and the bytes it was decoded from. *)
Record Clip := mkClip {
  clip_audio : option string;
  clip_fps : Q;
  clip_duration : Q;
  clip_source : string
}.

(** A [moviepy.TextClip] after [with_duration], [with_start] and
    [with_position]. *)
Record TextClip := mkTextClip {
  tc_text : string;
  tc_font_size : Z;
  tc_color : string;
  tc_duration : Q;
  tc_start : Q;
  tc_position : string * string
}.

(** A loaded whisper model. *)
Inductive Model := ModelHandle (name : string).

(** A [pydub.AudioSegment]. *)
Record AudioSegment := mkAudioSegment {
  seg_frame_rate : Z;
  seg_channels : Z;
  seg_samples : list Z
}.

(** What the libraries answer.  A call that decodes or copies a file gets
    the contents of the file; every call may raise. *)
Record World := mkWorld {
  (* moviepy *)
  w_VideoFileClip : string -> result Clip;
  w_write_audiofile : string -> string -> result string;
  w_close : Clip -> result unit;
  w_TextClip : string -> Z -> string -> result unit;
  w_write_videofile : Clip -> list TextClip -> Q -> string -> string -> result string;
  (* whisper *)
  w_load_model : string -> result Model;
  w_transcribe_file : Model -> string -> option string -> result pyval;
  w_transcribe_array : Model -> list Q -> option string -> result pyval;
  (* pydub *)
  w_from_file : string -> result AudioSegment;
  w_set_frame_rate : Z -> AudioSegment -> result AudioSegment;
  w_set_channels : Z -> AudioSegment -> result AudioSegment;
  (* srt *)
  w_compose : list Subtitle -> result string;
  w_parse : string -> result (list Subtitle);
  (* shutil *)
  w_copy : string -> result unit;
  (* moviepy, [CompositeVideoClip.close] *)
  w_close_composite : Clip -> list TextClip -> result unit
}.

(** ** State of a run: files, what the page shows, library calls made *)

(** The four statistics of the results section. *)
Record Stats := mkStats {
  video_duration : Q;
  word_count : nat;
  segment_count : nat;
  model_used : string
}.

(** What the streamlit page is asked to show. *)
Inductive ui :=
| UiError (msg : string)
| UiSuccess (msg : string)
| UiWarning (msg : string)
| UiInfo (msg : string)
| UiStatus (msg : string)
| UiProgress (n : Z)
| UiWrite (v : pyval)
| UiVideo (data : string)
| UiSample (start_ end_ : timedelta) (content : string)
| UiDownload (file_name label data : string)
| UiTextArea (label data : string)
| UiStats (s : Stats)
| UiHeading (s : string)
| UiBalloons
| UiAllDone.

(** The calls into whisper and pydub, in the order they are made. *)
Inductive call :=
| CLoadModel (name : string)
| CTranscribeFile (language : option string)
| CFromFile
| CSetFrameRate (rate : Z)
| CSetChannels (n : Z)
| CTranscribeArray (language : option string).

Record State := mkState {
  st_fs : gmap string string;
  st_ui : list ui;
  st_calls : list call
}.

(** A computation that reads and changes the state and returns or raises. *)
Definition M (A : Type) : Type := State -> result A * State.

#[global] Instance M_ret : MRet M := fun A a s => (Ok a, s).
#[global] Instance M_bind : MBind M := fun A B f m s =>
  match m s with
  | (Ok a, s') => f a s'
  | (Raise e, s') => (Raise e, s')
  end.

(** [try: m  except Exception as e: h e] *)
Definition try_except {A} (m : M A) (h : exn -> M A) : M A := fun s =>
  match m s with
  | (Ok a, s') => (Ok a, s')
  | (Raise e, s') => h e s'
  end.

(** The outcome of a library call, or of an operation on a Python value. *)
Definition lift {A} (r : result A) : M A := fun s => (r, s).

Definition show (u : ui) : M unit := fun s =>
  (Ok tt, mkState (st_fs s) (st_ui s ++ [u]) (st_calls s)).

Definition called (c : call) : M unit := fun s =>
  (Ok tt, mkState (st_fs s) (st_ui s) (st_calls s ++ [c])).

(** [open(path, "w").write(data)] *)
Definition write_file (path data : string) : M unit := fun s =>
  (Ok tt, mkState (<[path := data]> (st_fs s)) (st_ui s) (st_calls s)).

(** [open(path).read()] *)
Definition read_file (path : string) : M string := fun s =>
  match st_fs s !! path with
  | Some data => (Ok data, s)
  | None => (Raise (FileNotFoundError path), s)
  end.

(** [os.path.exists(path)] *)
Definition path_exists (path : string) : M bool := fun s =>
  (Ok (bool_decide (is_Some (st_fs s !! path))), s).

(** Operations on Python values return or raise without touching the state. *)
#[global] Instance result_ret : MRet result := fun A a => Ok a.
#[global] Instance result_bind : MBind result := fun A B f r =>
  match r with
  | Ok a => f a
  | Raise e => Raise e
  end.

(** [VideoFileClip(path)]: the file is read and decoded. *)
Definition open_clip (w : World) (path : string) : M Clip :=
  data ← read_file path; lift (w_VideoFileClip w data).

(** ** [app.py] *)

Definition extract_audio_from_video (w : World) (video_path audio_output_path : string)
  : M bool :=
  try_except
    (video ← open_clip w video_path;
     match clip_audio video with
     | Some audio =>
         wav ← lift (w_write_audiofile w audio "pcm_s16le");
         write_file audio_output_path wav;;
         lift (w_close w video);;
         mret true
     | None => mret false
     end)
    (fun e =>
       show (UiError ("Error extracting audio: " +:+ exn_msg e));;
       mret false).

(** [np.array(audio.get_array_of_samples(), dtype=np.float32) / 32768.0] *)
Definition audio_array (audio : AudioSegment) : list Q :=
  (fun x => x # 32768) <$> seg_samples audio.

Definition transcribe_audio_whisper (w : World) (audio_path : string) : M pyval :=
  try_except
    (called (CLoadModel "base");;
     model ← lift (w_load_model w "base");
     try_except
       (called (CTranscribeFile (Some "en"));;
        data ← read_file audio_path;
        lift (w_transcribe_file w model data (Some "en")))
       (fun _ =>
          called CFromFile;;
          data ← read_file audio_path;
          audio ← lift (w_from_file w data);
          called (CSetFrameRate 16000);;
          audio ← lift (w_set_frame_rate w 16000 audio);
          called (CSetChannels 1);;
          audio ← lift (w_set_channels w 1 audio);
          called (CTranscribeArray None);;
          lift (w_transcribe_array w model (audio_array audio) None)))
    (fun e =>
       show (UiError ("Error in transcription: " +:+ exn_msg e));;
       mret PNone).

(** The [srt.Subtitle(...)] built for the segment at position [i]. *)
Definition make_subtitle (i : Z) (segment : pyval) : result Subtitle :=
  start ← Py.getitem segment "start" ≫= timedelta_seconds;
  end_ ← Py.getitem segment "end" ≫= timedelta_seconds;
  content ← Py.getitem segment "text" ≫= Py.strip;
  mret (mkSubtitle (i + 1) start end_ content).

(** The loop over [enumerate(...)]: [i] is the position of the next segment
    and [subtitles] the list appended to so far. *)
Fixpoint subtitles_loop (i : Z) (segments : list pyval) (subtitles : list Subtitle)
  : result (list Subtitle) :=
  match segments with
  | [] => Ok subtitles
  | segment :: rest =>
      subtitle ← make_subtitle i segment;
      subtitles_loop (i + 1) rest (subtitles ++ [subtitle])
  end.

(** The entries the formatter hands to [srt.compose]. *)
Definition build_subtitles (transcription : pyval) : result (list Subtitle) :=
  segments ← Py.get transcription "segments" (PList []) ≫= Py.iter;
  subtitles_loop 0 segments [].

Definition generate_srt_from_transcription (w : World) (transcription : pyval)
  : M string :=
  try_except
    (subtitles ← lift (build_subtitles transcription);
     lift (w_compose w subtitles))
    (fun e =>
       show (UiError ("Error generating SRT: " +:+ exn_msg e));;
       mret EmptyString).

(** The text clips of [burn_subtitles_onto_video]. *)
Fixpoint burn_clips (w : World) (subtitles : list Subtitle) (clips : list TextClip)
  : M (list TextClip) :=
  match subtitles with
  | [] => mret clips
  | sub :: rest =>
      let start_sec := total_seconds (sub_start sub) in
      let end_sec := total_seconds (sub_end sub) in
      let duration := (end_sec - start_sec)%Q in
      lift (w_TextClip w (sub_content sub) 28 "white");;
      burn_clips w rest
        (clips ++ [mkTextClip (sub_content sub) 28 "white" duration start_sec
                     ("center", "bottom")])
  end.

Definition burn_subtitles_onto_video (w : World)
    (video_path srt_content output_path : string) : M bool :=
  try_except
    (subtitles ← lift (w_parse w srt_content);
     video ← open_clip w video_path;
     subtitle_clips ← burn_clips w subtitles [];
     out ← lift (w_write_videofile w video subtitle_clips (clip_fps video) "libx264" "aac");
     write_file output_path out;;
     lift (w_close w video);;
     match subtitle_clips with
     | [] => lift (w_close w video)
     | _ => lift (w_close_composite w video subtitle_clips)
     end;;
     mret true)
    (fun e =>
       show (UiError ("Error burning subtitles: " +:+ exn_msg e));;
       mret false).

(** The link shows the name, the label and the (base64 encoded) data. *)
Definition get_file_download_link (file_path file_name label : string) : M ui :=
  data ← read_file file_path; mret (UiDownload file_name label data).

(** The three entries of the "Select Whisper Model" box. *)
Inductive ModelOption := BaseFast | SmallBetter | MediumBest.

Definition option_label (o : ModelOption) : string :=
  match o with
  | BaseFast => "base (Fast & Good)"
  | SmallBetter => "small (Better)"
  | MediumBest => "medium (Best)"
  end.

Definition temp_dir : string := "temp_processing".
Definition video_path : string := "temp_processing/uploaded_video.mp4".
Definition audio_path : string := "temp_processing/audio.wav".
Definition srt_path : string := "temp_processing/subtitles.srt".
Definition output_video_path : string := "temp_processing/output_with_subtitles.mp4".

(** "View Sample Subtitles": the first five parsed entries. *)
Fixpoint show_samples (subtitles : list Subtitle) : M unit :=
  match subtitles with
  | [] => mret tt
  | sub :: rest =>
      show (UiSample (sub_start sub) (sub_end sub) (sub_content sub));;
      show_samples rest
  end.

(** The text overlays of step 4 of [main]. *)
Fixpoint overlay_clips (w : World) (subtitles : list Subtitle) (clips : list TextClip)
  : M (list TextClip) :=
  match subtitles with
  | [] => mret clips
  | sub :: rest =>
      let start_sec := total_seconds (sub_start sub) in
      let duration := (total_seconds (sub_end sub) - start_sec)%Q in
      lift (w_TextClip w (sub_content sub) 18 "white");;
      overlay_clips w rest
        (clips ++ [mkTextClip (sub_content sub) 18 "white" duration start_sec
                     ("center", "bottom")])
  end.

(** The [try] block of step 4 of [main]: the overlays are composed over the
    video and the result is encoded. *)
Definition burn_attempt (w : World) (srt_content : string) : M bool :=
  video ← open_clip w video_path;
  subtitles ← lift (w_parse w srt_content);
  clips ← overlay_clips w subtitles [];
  out ← lift (w_write_videofile w video clips (clip_fps video) "libx264" "aac");
  write_file output_video_path out;;
  lift (w_close w video);;
  lift (w_close_composite w video clips);;
  show (UiProgress 80);;
  show (UiSuccess "  Subtitles burned onto video");;
  mret true.

(** Step 4 of [main].  The result tells whether [main] goes on ([true]) or
    has executed [return] ([false]). *)
Definition burn_step (w : World) (srt_content : string) : M bool :=
  show (UiStatus "Step 4/5: Burning subtitles onto video...");;
  try_except
    (burn_attempt w srt_content)
    (fun e =>
       show (UiWarning ("Using alternative method: " +:+ exn_msg e));;
       try_except
         (data ← read_file video_path;
          lift (w_copy w data);;
          write_file output_video_path data;;
          show (UiInfo "Video saved without subtitles (fallback mode). SRT file is available for download.");;
          mret true)
         (fun _ =>
            show (UiError "Could not process video with subtitles");;
            mret false)).

(** The statistics of the results section. *)
Definition statistics (w : World) (transcription : pyval) (model_option : ModelOption)
  : M Stats :=
  duration ← try_except
    (video_clip ← open_clip w video_path;
     try_except (lift (w_close w video_clip)) (fun _ => mret tt);;
     mret (clip_duration video_clip))
    (fun _ => mret 0%Q);
  words ← lift (Py.getitem transcription "text" ≫= Py.split);
  segments ← lift (Py.get transcription "segments" (PList []) ≫= Py.len);
  used ← lift (match PyStr.split (option_label model_option) with
               | name :: _ => Ok name
               | [] => Raise (Exn "IndexError" "list index out of range")
               end);
  mret (mkStats duration (length words) segments used).

(** Step 5 of [main] and the results section. *)
Definition results_section (w : World) (transcription : pyval)
    (model_option : ModelOption) : M unit :=
  show (UiStatus "Step 5/5: Finalizing...");;
  show (UiProgress 100);;
  show (UiStatus "  Processing complete!");;
  show (UiHeading "Results");;
  try_except
    (data ← read_file output_video_path; show (UiVideo data))
    (fun _ => show (UiWarning "Video preview not available"));;
  srt_download ← get_file_download_link srt_path "subtitles.srt" "Download SRT";
  show srt_download;;
  preview ← read_file srt_path;
  show (UiTextArea "SRT Content Preview" preview);;
  present ← path_exists output_video_path;
  (if present : bool then
     video_download ← get_file_download_link output_video_path
                        "video_with_subtitles.mp4" "Download Video";
     show video_download
   else mret tt);;
  stats ← statistics w transcription model_option;
  show (UiStats stats);;
  show UiBalloons;;
  show UiAllDone.

(** [main], for the file uploaded (if any), whether "Generate Captions" was
    pressed, and the entry selected in the model box.  The parts of the page
    that do not depend on the run (title, sidebar, list of steps, headings
    of the columns) are left out. *)
Definition main (w : World) (uploaded_file : option string) (button : bool)
    (model_option : ModelOption) : M unit :=
  match uploaded_file with
  | None => show (UiHeading "How to Use")
  | Some data =>
      write_file video_path data;;
      show (UiVideo data);;
      if button then
        show (UiProgress 0);;
        show (UiStatus "Step 1/5: Extracting audio from video...");;
        extracted ← extract_audio_from_video w video_path audio_path;
        if extracted : bool then
          show (UiProgress 20);;
          show (UiSuccess "  Audio extracted successfully");;
          show (UiStatus "Step 2/5: Transcribing audio using AI...");;
          transcription ← transcribe_audio_whisper w audio_path;
          if Py.truthy transcription then
            show (UiProgress 40);;
            show (UiSuccess "  Transcription completed");;
            text ← lift (Py.getitem transcription "text");
            show (UiWrite text);;
            show (UiStatus "Step 3/5: Generating subtitle file...");;
            srt_content ← generate_srt_from_transcription w transcription;
            write_file srt_path srt_content;;
            show (UiProgress 60);;
            show (UiSuccess "  SRT file generated");;
            subtitles ← lift (w_parse w srt_content);
            show_samples (take 5 subtitles);;
            go_on ← burn_step w srt_content;
            if go_on : bool then results_section w transcription model_option
            else mret tt
          else
            show (UiError "Transcription failed")
        else
          show (UiError "Failed to extract audio")
      else mret tt
  end.

(** ** Transcripts

    A transcript as whisper returns it: every segment has a numeric
    ['start'] and ['end'] and a string ['text'], next to whatever other keys
    (['id'], ['seek'], ['tokens'], ...) the model adds. *)
Record TranscriptSegment := mkSegment {
  ts_start : Q;
  ts_end : Q;
  ts_text : string;
  ts_extra : gmap string pyval
}.

Record Transcript := mkTranscript {
  full_text : string;
  segments : list TranscriptSegment;
  t_extra : gmap string pyval
}.

Definition segment_py (sg : TranscriptSegment) : pyval :=
  PDict (<["start" := PNum (ts_start sg)]>
        (<["end" := PNum (ts_end sg)]>
        (<["text" := PStr (ts_text sg)]> (ts_extra sg)))).

Definition transcript_py (t : Transcript) : pyval :=
  PDict (<["text" := PStr (full_text t)]>
        (<["segments" := PList (segment_py <$> segments t)]> (t_extra t))).

(** The subtitle entry expected for the segment at position [i]. *)
Definition entry_of (i : nat) (sg : TranscriptSegment) : Subtitle :=
  mkSubtitle (Z.of_nat i + 1)
    (timedelta_of_seconds (ts_start sg)) (timedelta_of_seconds (ts_end sg))
    (PyStr.strip (ts_text sg)).

(** ** [simple.py] and [low_lat.py] *)

(** The loop [for i in range(len(list_a)): result += list_a[i] * list_b[i]];
    [total] is the variable [result]. *)
Fixpoint simple_loop (range : list nat) (list_a list_b : list Z) (total : Z)
  : result Z :=
  match range with
  | [] => Ok total
  | i :: rest =>
      match list_a !! i, list_b !! i with
      | Some x, Some y => simple_loop rest list_a list_b (total + x * y)
      | _, _ => Raise (Exn "IndexError" "list index out of range")
      end
  end.

(** Python integers are unbounded. *)
Definition dot_product_simple (list_a list_b : list Z) : result Z :=
  if bool_decide (length list_a ≠ length list_b) then
    Raise (Exn "ValueError" "Lists must be of the same length")
  else simple_loop (seq 0 (length list_a)) list_a list_b 0.

(** The sum of the elementwise products. *)
Fixpoint sum_of_products (list_a list_b : list Z) : Z :=
  match list_a, list_b with
  | x :: a, y :: b => x * y + sum_of_products a b
  | _, _ => 0
  end.

(** A NumPy array of integers, as [np.array([1, 2, 3])] builds it, has
    dtype [int64]: its elements lie in the signed 64-bit range and
    arithmetic on them wraps around. *)
Definition int64_min : Z := - 2 ^ 63.
Definition int64_max : Z := 2 ^ 63 - 1.

Definition in_int64 (z : Z) : Prop := int64_min <= z <= int64_max.

Definition wrap64 (z : Z) : Z := (z + 2 ^ 63) mod 2 ^ 64 - 2 ^ 63.

(** [np.array(l)] for a list of Python integers that all fit in [int64];
    for other lists NumPy chooses another dtype, which is not modelled. *)
Definition np_array (l : list Z) : option (list Z) :=
  if bool_decide (Forall in_int64 l) then Some l else None.

(** The [int64] inner product of [np.dot]: a 64-bit accumulator to which
    the 64-bit products are added. *)
Fixpoint int64_dot (array_a array_b : list Z) (tmp : Z) : Z :=
  match array_a, array_b with
  | x :: a, y :: b => int64_dot a b (wrap64 (tmp + wrap64 (x * y)))
  | _, _ => tmp
  end.

Definition dot_product_numpy (array_a array_b : list Z) : result Z :=
  if bool_decide (length array_a ≠ length array_b) then
    Raise (Exn "ValueError" "shapes not aligned")
  else Ok (int64_dot array_a array_b 0).

(** The whisper model that an entry of the model box names. *)
Definition tier_model (o : ModelOption) : string :=
  match o with
  | BaseFast => "base"
  | SmallBetter => "small"
  | MediumBest => "medium"
  end.

(** ** Transcripts used as examples *)

(** The scenario of the specification: "hello world" spoken from 1.0 s to
    2.0 s. *)
Definition hello_world : Transcript :=
  mkTranscript "hello world" [mkSegment 1 2 "hello world" ∅] ∅.


(** A segment that ends before it starts, and one of no duration. *)
Definition backwards : Transcript :=
  mkTranscript "x y" [mkSegment 2 1 "x" ∅; mkSegment 3 3 "y" ∅] ∅.

(** A transcription whose only segment has no ['text']. *)
Definition no_text : pyval :=
  PDict {[ "text" := PStr "hi";
           "segments" := PList [PDict {[ "start" := PNum 0; "end" := PNum 1 ]}] ]}.

(** ** The round trip that the srt library promises

    [srt.compose] and [srt.parse] belong to the srt library, so the program
    is verified against what the library documents: entries numbered from 1,
    in chronological order, with a positive duration and a one-line content
    free of surrounding whitespace are composed to a text that parses back
    to the same entries, their times cut to whole milliseconds (the
    resolution of the [HH:MM:SS,mmm] time stamps). *)

Definition LF : ascii := ascii_of_nat 10.










(** ** A reference reader and writer of the SubRip format

    One block per entry: the index, the line [HH:MM:SS,mmm --> HH:MM:SS,mmm],
    the content, and an empty line.  It serves as an instance of the round
    trip above. *)

Module SubRip.

Definition decimal (n : N) : string := NilEmpty.string_of_uint (N.to_uint n).

(** [%02d] and [%03d] *)
Definition pad2 (n : N) : string :=
  if (n <? 10)%N then String "0" (decimal n) else decimal n.

Definition pad3 (n : N) : string :=
  if (n <? 10)%N then String "0" (String "0" (decimal n))
  else if (n <? 100)%N then String "0" (decimal n)
  else decimal n.

Definition timestamp (td : timedelta) : string :=
  let millis := Z.to_N (td / 1000) in
  let secs := (millis / 1000)%N in
  pad2 (secs / 3600) +:+ ":" +:+ pad2 ((secs / 60) mod 60) +:+ ":" +:+ pad2 (secs mod 60)
  +:+ "," +:+ pad3 (millis mod 1000).

Definition block (sub : Subtitle) : string :=
  decimal (Z.to_N (sub_index sub)) +:+ String LF
    (timestamp (sub_start sub) +:+ " --> " +:+ timestamp (sub_end sub) +:+ String LF
       (sub_content sub +:+ String LF (String LF EmptyString))).

Fixpoint compose (subtitles : list Subtitle) : string :=
  match subtitles with
  | [] => EmptyString
  | sub :: rest => block sub +:+ compose rest
  end.

(** The lines of a text. *)
Fixpoint lines (s : string) : list string :=
  match s with
  | EmptyString => [EmptyString]
  | String c r =>
      if Ascii.eqb c LF then EmptyString :: lines r
      else match lines r with
           | l :: ls => String c l :: ls
           | [] => [String c EmptyString]
           end
  end.

(** The text before and after the first occurrence of a character. *)
Fixpoint split_at (c : ascii) (s : string) : option (string * string) :=
  match s with
  | EmptyString => None
  | String x r =>
      if Ascii.eqb x c then Some (EmptyString, r)
      else '(a, b) ← split_at c r; Some (String x a, b)
  end.

Definition number (s : string) : option N :=
  match s with
  | EmptyString => None
  | _ => N.of_uint <$> NilEmpty.uint_of_string s
  end.

Definition read_timestamp (s : string) : option timedelta :=
  '(h, r) ← split_at ":" s;
  '(m, r) ← split_at ":" r;
  '(sec, ms) ← split_at "," r;
  h ← number h; m ← number m; sec ← number sec; ms ← number ms;
  Some (Z.of_N (((h * 3600 + m * 60 + sec) * 1000 + ms) * 1000)).

Definition read_times (s : string) : option (timedelta * timedelta) :=
  '(a, r) ← split_at " " s;
  '(arrow, b) ← split_at " " r;
  if String.eqb arrow "-->" then
    a ← read_timestamp a; b ← read_timestamp b; Some (a, b)
  else None.

Fixpoint read_blocks (ls : list string) : option (list Subtitle) :=
  match ls with
  | [] => Some []
  | idx :: rest1 =>
      match rest1 with
      | [] => if String.eqb idx EmptyString then Some [] else None
      | times :: rest2 =>
          match rest2 with
          | content :: rest3 =>
              match rest3 with
              | blank :: rest4 =>
                  if String.eqb blank EmptyString then
                    i ← number idx;
                    '(a, b) ← read_times times;
                    subs ← read_blocks rest4;
                    Some (mkSubtitle (Z.of_N i) a b content :: subs)
                  else None
              | [] => None
              end
          | [] => None
          end
      end
  end.

Definition parse (text : string) : result (list Subtitle) :=
  match read_blocks (lines text) with
  | Some subs => Ok subs
  | None => Raise (Exn "SRTParseError" "the text is not a sequence of subtitle blocks")
  end.

End SubRip.

(** ** Worlds used as examples

    Every library call succeeds, except that the answer of whisper to the
    audio file, the outcome of encoding the captioned video and the outcome
    of [shutil.copy] are given; srt is the reference reader and writer. *)
Definition example_world (native : result pyval) (encoded : result string)
    (copied : result unit) : World :=
  {| w_VideoFileClip := fun data => Ok (mkClip (Some "pcm") 25 10 data);
     w_write_audiofile := fun _ _ => Ok "wav";
     w_close := fun _ => Ok tt;
     w_TextClip := fun _ _ _ => Ok tt;
     w_write_videofile := fun _ _ _ _ _ => encoded;
     w_load_model := fun name => Ok (ModelHandle name);
     w_transcribe_file := fun _ _ _ => native;
     w_transcribe_array := fun _ _ _ => Ok (transcript_py hello_world);
     w_from_file := fun _ => Ok (mkAudioSegment 44100 2 [0; 16384]);
     w_set_frame_rate := fun rate a => Ok (mkAudioSegment rate (seg_channels a) (seg_samples a));
     w_set_channels := fun n a => Ok (mkAudioSegment (seg_frame_rate a) n (seg_samples a));
     w_compose := fun subtitles => Ok (SubRip.compose subtitles);
     w_parse := SubRip.parse;
     w_copy := fun _ => copied;
     w_close_composite := fun _ _ => Ok tt |}.

(** A fresh working directory and an empty page. *)
Definition initial : State := mkState ∅ [] [].

(** The state with further library calls recorded. *)
Definition with_calls (s : State) (cs : list call) : State :=
  mkState (st_fs s) (st_ui s) (st_calls s ++ cs).

(** The statistics a page shows. *)
Definition shown_stats (page : list ui) : list Stats :=
  omap (fun u => match u with UiStats st => Some st | _ => None end) page.

(** The run went through to its last message. *)
Definition completed (page : list ui) : bool :=
  match last page with
  | Some UiAllDone => true
  | _ => false
  end.

(** The messages of [st.error] on a page. *)
Definition shown_errors (page : list ui) : list string :=
  omap (fun u => match u with UiError msg => Some msg | _ => None end) page.

(** What the results section shows when both artifacts are on disk. *)
Definition results_page (video_out text : string) (stats : Stats) : list ui :=
  [UiStatus "Step 5/5: Finalizing..."; UiProgress 100;
   UiStatus "  Processing complete!"; UiHeading "Results";
   UiVideo video_out;
   UiDownload "subtitles.srt" "Download SRT" text;
   UiTextArea "SRT Content Preview" text;
   UiDownload "video_with_subtitles.mp4" "Download Video" video_out;
   UiStats stats; UiBalloons; UiAllDone].


(** ** The round trip of a transcript *)




(** ** Further notions used by the properties *)

(** A world in which the outcomes of opening the video, closing a clip,
    loading the model, asking whisper to decode the audio file and reading
    the same file with pydub are given; the other calls succeed as in the
    example world. *)
Definition studio_world (opened : result Clip) (closed : result unit)
    (loaded : result Model) (native : result pyval) (decoded : result AudioSegment)
  : World :=
  {| w_VideoFileClip := fun _ => opened;
     w_write_audiofile := fun _ _ => Ok "wav";
     w_close := fun _ => closed;
     w_TextClip := fun _ _ _ => Ok tt;
     w_write_videofile := fun _ _ _ _ _ => Ok "mp4";
     w_load_model := fun _ => loaded;
     w_transcribe_file := fun _ _ _ => native;
     w_transcribe_array := fun _ _ _ => Ok (transcript_py hello_world);
     w_from_file := fun _ => decoded;
     w_set_frame_rate := fun rate a => Ok (mkAudioSegment rate (seg_channels a) (seg_samples a));
     w_set_channels := fun n a => Ok (mkAudioSegment (seg_frame_rate a) n (seg_samples a));
     w_compose := fun subtitles => Ok (SubRip.compose subtitles);
     w_parse := SubRip.parse;
     w_copy := fun _ => Ok tt;
     w_close_composite := fun _ _ => Ok tt |}.

(** The computation writes no file outside [paths], whatever it returns. *)
Definition touches_only {A} (paths : list string) (m : M A) : Prop :=
  forall s r s', m s = (r, s') ->
    forall p, p ∉ paths -> st_fs s' !! p = st_fs s !! p.

(** The overlay that step 4 of [main] makes for a parsed entry. *)
Definition overlay_of (sub : Subtitle) : TextClip :=
  mkTextClip (sub_content sub) 18 "white"
    (total_seconds (sub_end sub) - total_seconds (sub_start sub))%Q
    (total_seconds (sub_start sub)) ("center", "bottom").

(** The clip that [burn_subtitles_onto_video] makes for a parsed entry. *)
Definition caption_of (sub : Subtitle) : TextClip :=
  mkTextClip (sub_content sub) 28 "white"
    (total_seconds (sub_end sub) - total_seconds (sub_start sub))%Q
    (total_seconds (sub_start sub)) ("center", "bottom").




(** The page of a run that stops, or goes on, after the upload. *)
Definition upload_page (video : string) : list ui :=
  [UiVideo video; UiProgress 0; UiStatus "Step 1/5: Extracting audio from video..."].

(** The warnings on a page. *)
Definition shown_warnings (page : list ui) : list string :=
  omap (fun u => match u with UiWarning msg => Some msg | _ => None end) page.

(** A world whose srt library composes a text that it cannot parse. *)
Definition garbling_world : World :=
  {| w_VideoFileClip := fun data => Ok (mkClip (Some "pcm") 25 10 data);
     w_write_audiofile := fun _ _ => Ok "wav";
     w_close := fun _ => Ok tt;
     w_TextClip := fun _ _ _ => Ok tt;
     w_write_videofile := fun _ _ _ _ _ => Ok "mp4";
     w_load_model := fun name => Ok (ModelHandle name);
     w_transcribe_file := fun _ _ _ => Ok (transcript_py hello_world);
     w_transcribe_array := fun _ _ _ => Ok (transcript_py hello_world);
     w_from_file := fun _ => Ok (mkAudioSegment 44100 2 [0; 16384]);
     w_set_frame_rate := fun rate a => Ok (mkAudioSegment rate (seg_channels a) (seg_samples a));
     w_set_channels := fun n a => Ok (mkAudioSegment (seg_frame_rate a) n (seg_samples a));
     w_compose := fun _ => Ok "garbled";
     w_parse := SubRip.parse;
     w_copy := fun _ => Ok tt;
     w_close_composite := fun _ _ => Ok tt |}.

(** The page between the upload and the end of step 3 of a run that gets
    that far. *)
Definition progress_page (video : string) (text : pyval) : list ui :=
  upload_page video ++
  [UiProgress 20; UiSuccess "  Audio extracted successfully";
   UiStatus "Step 2/5: Transcribing audio using AI...";
   UiProgress 40; UiSuccess "  Transcription completed"; UiWrite text;
   UiStatus "Step 3/5: Generating subtitle file...";
   UiProgress 60; UiSuccess "  SRT file generated"].

(** The samples shown for parsed entries. *)
Definition sample_page (subtitles : list Subtitle) : list ui :=
  (fun sub => UiSample (sub_start sub) (sub_end sub) (sub_content sub))
    <$> take 5 subtitles.

(** Two computations that return the same, leave the same files and make
    the same library calls from every state; what they show may differ. *)
Definition same_effects {A} (m1 m2 : M A) : Prop :=
  forall s,
    (m1 s).1 = (m2 s).1 /\
    st_fs (m1 s).2 = st_fs (m2 s).2 /\
    st_calls (m1 s).2 = st_calls (m2 s).2.

(** * Properties *)

(** ** Strings and times on examples *)

Example strip_hello : PyStr.strip "  hello world " = "hello world".
Proof. reflexivity. Qed.

Example split_hello : PyStr.split " hello   world " = ["hello"; "world"].
Proof. reflexivity. Qed.

Example timedelta_one_second : timedelta_of_seconds 1 = 1000000.
Proof. reflexivity. Qed.

Example timedelta_rounds : timedelta_of_seconds (35214567 # 10000000) = 3521457.
Proof. reflexivity. Qed.

Example timedelta_ties_to_even :
  timedelta_of_seconds (5 # 10000000) = 0 /\ timedelta_of_seconds (15 # 10000000) = 2.
Proof. split; reflexivity. Qed.

(** The entry of the "hello world" scenario, as the reference writer prints
    it: index 1, from 00:00:01,000 to 00:00:02,000. *)
Example hello_world_block :
  SubRip.lines (SubRip.compose (imap entry_of (segments hello_world)))
  = ["1"; "00:00:01,000 --> 00:00:02,000"; "hello world"; EmptyString; EmptyString].
Proof. reflexivity. Qed.

(** ** Words of a text *)

Lemma split_from_length (cur : option string) (s : string) :
  length (PyStr.split_from cur s)
  = (PyStr.token_starts (bool_decide (cur = None)) s
     + match cur with Some _ => 1 | None => 0 end)%nat.
Proof.
  revert cur. induction s as [|c r IH]; intros cur; simpl.
  - by destruct cur.
  - destruct (PyStr.isspace c).
    + destruct cur; simpl; rewrite IH; simpl; lia.
    + rewrite IH. destruct cur; simpl; lia.
Qed.

Lemma split_length (s : string) : length (PyStr.split s) = PyStr.count_tokens s.
Proof. unfold PyStr.split, PyStr.count_tokens. rewrite split_from_length. simpl. lia. Qed.

Lemma no_space_snoc (w : string) (c : ascii) :
  PyStr.no_space w = true -> PyStr.isspace c = false ->
  PyStr.no_space (w +:+ String c EmptyString) = true.
Proof.
  induction w as [|x w IH]; simpl; intros Hw Hc.
  - by rewrite Hc.
  - apply andb_true_iff in Hw as [Hx Hw]. rewrite Hx. simpl. by apply IH.
Qed.

Lemma snoc_not_empty (w : string) (c : ascii) : w +:+ String c EmptyString <> EmptyString.
Proof. by destruct w. Qed.

(** Every word [split] returns is non-empty and free of whitespace. *)
Lemma split_from_words (cur : option string) (s : string) :
  (forall w, cur = Some w -> w <> EmptyString /\ PyStr.no_space w = true) ->
  Forall (fun w => w <> EmptyString /\ PyStr.no_space w = true) (PyStr.split_from cur s).
Proof.
  revert cur. induction s as [|c r IH]; intros cur Hcur; simpl.
  - destruct cur; [|constructor]. repeat constructor; by apply Hcur.
  - destruct (PyStr.isspace c) eqn:Hc.
    + destruct cur.
      * constructor; [by apply Hcur|]. apply IH. intros ? [=].
      * apply IH. intros ? [=].
    + apply IH. intros w [= <-]. split; [apply snoc_not_empty|].
      apply no_space_snoc; [|done]. destruct cur; simpl; [by apply Hcur|done].
Qed.

Lemma split_words (s : string) :
  Forall (fun w => w <> EmptyString /\ PyStr.no_space w = true) (PyStr.split s).
Proof. apply split_from_words. intros ? [=]. Qed.

(** ** Stripping is idempotent *)






(** ** Rounding to microseconds *)




(** ** The two dot products *)

Lemma simple_loop_shift (a b : list Z) (x y : Z) (n k : nat) (total : Z) :
  simple_loop (seq (S k) n) (x :: a) (y :: b) total = simple_loop (seq k n) a b total.
Proof.
  revert k total. induction n as [|n IH]; intros k total; simpl; [done|].
  destruct (a !! k), (b !! k); simpl; auto.
Qed.

Lemma simple_loop_sum (a b : list Z) (total : Z) :
  length a = length b ->
  simple_loop (seq 0 (length a)) a b total = Ok (total + sum_of_products a b).
Proof.
  revert b total. induction a as [|x a IH]; intros [|y b] total Hlen; simpl in *;
    try discriminate.
  - f_equal. lia.
  - rewrite simple_loop_shift, IH by lia. f_equal. lia.
Qed.

Lemma wrap64_idem (z : Z) : wrap64 (wrap64 z) = wrap64 z.
Proof.
  unfold wrap64. replace ((z + 2 ^ 63) mod 2 ^ 64 - 2 ^ 63 + 2 ^ 63)
    with ((z + 2 ^ 63) mod 2 ^ 64) by lia.
  by rewrite Z.mod_mod.
Qed.

Lemma wrap64_add_l (x y : Z) : wrap64 (wrap64 x + y) = wrap64 (x + y).
Proof.
  unfold wrap64. f_equal.
  replace ((x + 2 ^ 63) mod 2 ^ 64 - 2 ^ 63 + y + 2 ^ 63)
    with ((x + 2 ^ 63) mod 2 ^ 64 + y) by lia.
  rewrite Zplus_mod_idemp_l. f_equal. lia.
Qed.

Lemma wrap64_add_r (x y : Z) : wrap64 (x + wrap64 y) = wrap64 (x + y).
Proof. by rewrite (Z.add_comm x), wrap64_add_l, (Z.add_comm y). Qed.

Lemma wrap64_small (z : Z) : in_int64 z -> wrap64 z = z.
Proof.
  unfold in_int64, int64_min, int64_max, wrap64. intros H.
  rewrite Z.mod_small; lia.
Qed.

Lemma wrap64_in_int64 (z : Z) : in_int64 (wrap64 z).
Proof.
  unfold in_int64, int64_min, int64_max, wrap64.
  pose proof (Z.mod_pos_bound (z + 2 ^ 63) (2 ^ 64)). lia.
Qed.

Lemma int64_dot_wrap (a b : list Z) (tmp : Z) :
  length a = length b ->
  wrap64 (int64_dot a b tmp) = wrap64 (tmp + sum_of_products a b).
Proof.
  revert b tmp. induction a as [|x a IH]; intros [|y b] tmp Hlen; simpl in *;
    try discriminate.
  - f_equal. lia.
  - rewrite IH by lia.
    rewrite wrap64_add_l, <- Z.add_assoc, (Z.add_comm (wrap64 _)), Z.add_assoc.
    rewrite wrap64_add_r. f_equal. lia.
Qed.

Lemma int64_dot_in_int64 (a b : list Z) (tmp : Z) :
  in_int64 tmp -> in_int64 (int64_dot a b tmp).
Proof.
  revert b tmp. induction a as [|x a IH]; intros [|y b] tmp Htmp; simpl; try done.
  apply IH, wrap64_in_int64.
Qed.

(** C10 (as stated, refuted): two one-element [int64] arrays whose product
    leaves the 64-bit range.  The loop of [simple.py] returns 2^64, NumPy's
    [int64] inner product wraps around to 0. *)
Lemma C10_counterexample :
  let a := [4294967296] in
  let b := [4294967296] in
  length a = length b /\
  np_array a = Some a /\ np_array b = Some b /\
  dot_product_simple a b = Ok 18446744073709551616 /\
  dot_product_numpy a b = Ok 0 /\
  dot_product_numpy a b <> dot_product_simple a b.
Proof. repeat split; try reflexivity. discriminate. Qed.

(** C10 (amended): for lists of equal length whose elements fit in [int64],
    [dot_product_simple] returns the sum of the elementwise products,
    [dot_product_numpy] returns that sum wrapped to the signed 64-bit range,
    and the two agree whenever the sum fits in 64 bits. *)
Theorem C10_dot_products (a b : list Z) :
  length a = length b ->
  Forall in_int64 a -> Forall in_int64 b ->
  dot_product_simple a b = Ok (sum_of_products a b) /\
  np_array a = Some a /\ np_array b = Some b /\
  dot_product_numpy a b = Ok (wrap64 (sum_of_products a b)) /\
  (in_int64 (sum_of_products a b) -> dot_product_numpy a b = dot_product_simple a b).
Proof.
  intros Hlen Ha Hb.
  assert (Hs : dot_product_simple a b = Ok (sum_of_products a b)).
  { unfold dot_product_simple. rewrite bool_decide_eq_false_2 by (intros H; by apply H).
    by rewrite simple_loop_sum. }
  assert (Hn : dot_product_numpy a b = Ok (wrap64 (sum_of_products a b))).
  { unfold dot_product_numpy. rewrite bool_decide_eq_false_2 by (intros H; by apply H).
    f_equal. rewrite <- (wrap64_small (int64_dot a b 0)).
    - by rewrite int64_dot_wrap.
    - apply int64_dot_in_int64. unfold in_int64, int64_min, int64_max. lia. }
  repeat split; try done.
  - unfold np_array. by rewrite bool_decide_eq_true_2.
  - unfold np_array. by rewrite bool_decide_eq_true_2.
  - intros Hfit. by rewrite Hn, Hs, wrap64_small.
Qed.

Lemma C10_dot_products_witness :
  dot_product_simple [1; 2; 3] [4; 5; 6] = Ok 32 /\
  dot_product_numpy [1; 2; 3] [4; 5; 6] = Ok 32.
Proof.
  assert (Hin : Forall in_int64 [1; 2; 3] /\ Forall in_int64 [4; 5; 6]).
  { split; repeat constructor; unfold in_int64, int64_min, int64_max; simpl; lia. }
  destruct Hin as [Ha Hb].
  destruct (C10_dot_products [1; 2; 3] [4; 5; 6] eq_refl Ha Hb) as (Hs & _ & _ & Hn & _).
  split; [exact Hs | exact Hn].
Defined.

(** ** Evaluating the state monad *)

Ltac run :=
  unfold try_except, open_clip, read_file, write_file, path_exists, show, called, lift,
    mbind, M_bind, mret, M_ret, result_bind, result_ret in *; simpl in *.

Lemma transcript_text (t : Transcript) :
  Py.getitem (transcript_py t) "text" = Ok (PStr (full_text t)).
Proof. simpl. by rewrite lookup_insert_eq. Qed.

Lemma transcript_segments (t : Transcript) :
  Py.get (transcript_py t) "segments" (PList []) = Ok (PList (segment_py <$> segments t)).
Proof. simpl. rewrite lookup_insert_ne by done. by rewrite lookup_insert_eq. Qed.

Lemma option_first_word (o : ModelOption) :
  PyStr.split (option_label o) = tier_model o :: tail (PyStr.split (option_label o)).
Proof. by destruct o. Qed.

(** The duration shown is read from the clip when it opens, and is 0 when
    it does not; the statistics never fail on a transcript. *)
Lemma statistics_spec (w : World) (t : Transcript) (o : ModelOption) (s : State) :
  exists d,
    statistics w (transcript_py t) o s
    = (Ok (mkStats d (length (PyStr.split (full_text t))) (length (segments t))
             (tier_model o)), s).
Proof.
  unfold statistics.
  assert (Hd : exists d,
    try_except
      (video_clip ← open_clip w video_path;
       try_except (lift (w_close w video_clip)) (fun _ => mret tt);;
       mret (clip_duration video_clip))
      (fun _ => mret 0%Q) s = (Ok d, s)).
  { run. destruct (st_fs s !! video_path) as [data|]; [|by eexists].
    destruct (w_VideoFileClip w data) as [clip|]; [|by eexists].
    destruct (w_close w clip); by eexists. }
  destruct Hd as [d Hd]. exists d.
  unfold mbind at 1, M_bind at 1. rewrite Hd.
  rewrite transcript_text, transcript_segments, option_first_word.
  run. by rewrite length_fmap.
Qed.

(** C8: the statistics of the results section count the words of the
    transcript's full text with [split()], which is the number of
    whitespace-delimited tokens of the text, and count the segments with
    [len]; "hello world" has 2 words and a single segment counts 1. *)
Theorem C8_statistics (w : World) (t : Transcript) (o : ModelOption) (s : State) :
  (exists stats,
     statistics w (transcript_py t) o s = (Ok stats, s) /\
     word_count stats = PyStr.count_tokens (full_text t) /\
     segment_count stats = length (segments t)) /\
  Forall (fun word => word <> EmptyString /\ PyStr.no_space word = true)
    (PyStr.split (full_text t)) /\
  PyStr.count_tokens "hello world" = 2%nat /\
  (forall sg, length (segments (mkTranscript "hello world" [sg] ∅)) = 1%nat).
Proof.
  split; [|split; [apply split_words|by split]].
  destruct (statistics_spec w t o s) as [d Hd].
  eexists. split; [exact Hd|]. simpl. split; [apply split_length|done].
Qed.

(** ** The subtitle formatter *)

Lemma segment_getitem (sg : TranscriptSegment) :
  Py.getitem (segment_py sg) "start" = Ok (PNum (ts_start sg)) /\
  Py.getitem (segment_py sg) "end" = Ok (PNum (ts_end sg)) /\
  Py.getitem (segment_py sg) "text" = Ok (PStr (ts_text sg)).
Proof.
  unfold segment_py, Py.getitem. repeat split.
  - by rewrite lookup_insert_eq.
  - rewrite lookup_insert_ne by done. by rewrite lookup_insert_eq.
  - do 2 rewrite lookup_insert_ne by done. by rewrite lookup_insert_eq.
Qed.

Lemma make_subtitle_segment (i : nat) (sg : TranscriptSegment) :
  make_subtitle (Z.of_nat i) (segment_py sg) = Ok (entry_of i sg).
Proof.
  unfold make_subtitle.
  destruct (segment_getitem sg) as (-> & -> & ->). done.
Qed.

Lemma subtitles_loop_segments (k : nat) (sgs : list TranscriptSegment)
    (subtitles : list Subtitle) :
  subtitles_loop (Z.of_nat k) (segment_py <$> sgs) subtitles
  = Ok (subtitles ++ imap (fun j => entry_of (k + j)) sgs)%list.
Proof.
  revert k subtitles. induction sgs as [|sg sgs IH]; intros k subtitles.
  - simpl. by rewrite app_nil_r.
  - rewrite fmap_cons. simpl subtitles_loop. rewrite make_subtitle_segment. simpl.
    replace (Z.of_nat k + 1) with (Z.of_nat (S k)) by lia.
    rewrite IH, <- app_assoc. simpl. rewrite Nat.add_0_r.
    do 3 f_equal. apply imap_ext. intros j x _. simpl. f_equal. lia.
Qed.

Lemma build_subtitles_transcript (t : Transcript) :
  build_subtitles (transcript_py t) = Ok (imap entry_of (segments t)).
Proof.
  unfold build_subtitles. rewrite transcript_segments. simpl.
  change 0 with (Z.of_nat 0). by rewrite subtitles_loop_segments.
Qed.

(** The formatter on a transcript: the entries are composed by the srt
    library, and a failure of the library is shown and gives the empty
    text. *)
Lemma generate_srt_transcript (w : World) (t : Transcript) (s : State) :
  generate_srt_from_transcription w (transcript_py t) s
  = match w_compose w (imap entry_of (segments t)) with
    | Ok text => (Ok text, s)
    | Raise e =>
        (Ok EmptyString,
         mkState (st_fs s) (st_ui s ++ [UiError ("Error generating SRT: " +:+ exn_msg e)])
           (st_calls s))
    end.
Proof.
  unfold generate_srt_from_transcription. rewrite build_subtitles_transcript. run.
  by destruct (w_compose w _).
Qed.




(** ** The audio extractor *)


(** ** The transcriber *)

(** The transcriber never raises: a failure is shown and gives [None]. *)
Ltac returned := do 2 eexists; reflexivity.

(** Use what is known about the answers of the libraries and the files. *)
Ltac feed :=
  simpl;
  repeat match goal with
         | H : ?l = _ |- context [?l] => rewrite H; simpl
         end.

Lemma transcribe_returns (w : World) (path : string) (s : State) :
  exists v s', transcribe_audio_whisper w path s = (Ok v, s').
Proof.
  unfold transcribe_audio_whisper. run.
  destruct (w_load_model w "base") as [model|]; simpl; [|returned].
  destruct (st_fs s !! path) as [data|] eqn:Hfile; simpl; rewrite ?Hfile; simpl;
    [|returned].
  destruct (w_transcribe_file w model data (Some "en")); simpl; [returned|].
  rewrite ?Hfile; simpl.
  destruct (w_from_file w data) as [a0|]; simpl; [|returned].
  destruct (w_set_frame_rate w 16000 a0) as [a1|]; simpl; [|returned].
  destruct (w_set_channels w 1 a1) as [a2|]; simpl; [|returned].
  destruct (w_transcribe_array w model (audio_array a2) None); simpl; returned.
Qed.



Ltac loaded_base :=
  do 3 eexists; split; [reflexivity|]; simpl; rewrite <- ?app_assoc; simpl;
  split; [reflexivity|]; intros name Hin;
  repeat (apply elem_of_cons in Hin as [Hin|Hin]; [discriminate Hin|]);
  by apply elem_of_nil in Hin.

(** Whatever the libraries answer, the transcriber loads the model named
    "base" and no other model. *)
Lemma transcribe_loads_base (w : World) (path : string) (s : State) :
  exists v s' rest,
    transcribe_audio_whisper w path s = (Ok v, s') /\
    st_calls s' = (st_calls s ++ CLoadModel "base" :: rest)%list /\
    (forall name, CLoadModel name ∉ rest).
Proof.
  unfold transcribe_audio_whisper. run.
  destruct (w_load_model w "base") as [model|]; simpl; [|loaded_base].
  destruct (st_fs s !! path) as [data|] eqn:Hfile; simpl; rewrite ?Hfile; simpl;
    [|loaded_base].
  destruct (w_transcribe_file w model data (Some "en")); simpl; [loaded_base|].
  rewrite ?Hfile; simpl.
  destruct (w_from_file w data) as [a0|]; simpl; [|loaded_base].
  destruct (w_set_frame_rate w 16000 a0) as [a1|]; simpl; [|loaded_base].
  destruct (w_set_channels w 1 a1) as [a2|]; simpl; [|loaded_base].
  destruct (w_transcribe_array w model (audio_array a2) None); simpl; loaded_base.
Qed.

(** C5 (the code departs from it): the model box offers three entries, but
    the transcriber takes no tier and loads "base" on every run.  On a run
    with "small (Better)" selected, the only model loaded is "base", while
    the statistics report "small" as the model used. *)
Theorem C5_selected_tier_is_ignored :
  (forall (w : World) (path : string) (s : State),
     exists v s' rest,
       transcribe_audio_whisper w path s = (Ok v, s') /\
       st_calls s' = (st_calls s ++ CLoadModel "base" :: rest)%list /\
       (forall name, CLoadModel name ∉ rest)) /\
  (let w := example_world (Ok (transcript_py hello_world)) (Ok "mp4") (Ok tt) in
   let s' := (main w (Some "video") true SmallBetter initial).2 in
   tier_model SmallBetter = "small" /\
   st_calls s' = [CLoadModel "base"; CTranscribeFile (Some "en")] /\
   shown_stats (st_ui s') = [mkStats 10 2 1 "small"]).
Proof.
  split; [apply transcribe_loads_base|].
  repeat split; vm_compute; reflexivity.
Qed.

(** ** Stages of [main] *)

Lemma bind_ok {A B} (m : M A) (f : A -> M B) (s s' : State) (a : A) :
  m s = (Ok a, s') -> (m ≫= f) s = f a s'.
Proof. intros H. unfold mbind, M_bind. by rewrite H. Qed.

Lemma bind_raise {A B} (m : M A) (f : A -> M B) (s s' : State) (e : exn) :
  m s = (Raise e, s') -> (m ≫= f) s = (Raise e, s').
Proof. intros H. unfold mbind, M_bind. by rewrite H. Qed.

Lemma extract_audio_ok (w : World) (video audio_out data : string) (clip : Clip)
    (track wav : string) (s : State) :
  st_fs s !! video = Some data ->
  w_VideoFileClip w data = Ok clip ->
  clip_audio clip = Some track ->
  w_write_audiofile w track "pcm_s16le" = Ok wav ->
  w_close w clip = Ok tt ->
  extract_audio_from_video w video audio_out s
  = (Ok true, mkState (<[audio_out := wav]> (st_fs s)) (st_ui s) (st_calls s)).
Proof. intros. unfold extract_audio_from_video. run. by feed. Qed.

Lemma transcribe_native (w : World) (path data : string) (model : Model) (r : pyval)
    (s : State) :
  w_load_model w "base" = Ok model ->
  st_fs s !! path = Some data ->
  w_transcribe_file w model data (Some "en") = Ok r ->
  transcribe_audio_whisper w path s
  = (Ok r, with_calls s [CLoadModel "base"; CTranscribeFile (Some "en")]).
Proof.
  intros. unfold transcribe_audio_whisper, with_calls. run. feed.
  rewrite <- !app_assoc. reflexivity.
Qed.

Lemma transcribe_fallback (w : World) (path data : string) (model : Model) (e : exn)
    (a0 a1 a2 : AudioSegment) (r : pyval) (s : State) :
  w_load_model w "base" = Ok model ->
  st_fs s !! path = Some data ->
  w_transcribe_file w model data (Some "en") = Raise e ->
  w_from_file w data = Ok a0 ->
  w_set_frame_rate w 16000 a0 = Ok a1 ->
  w_set_channels w 1 a1 = Ok a2 ->
  w_transcribe_array w model (audio_array a2) None = Ok r ->
  transcribe_audio_whisper w path s
  = (Ok r, with_calls s [CLoadModel "base"; CTranscribeFile (Some "en"); CFromFile;
                         CSetFrameRate 16000; CSetChannels 1; CTranscribeArray None]).
Proof.
  intros. unfold transcribe_audio_whisper, with_calls. run. feed.
  rewrite <- !app_assoc. reflexivity.
Qed.

Lemma transcript_truthy (t : Transcript) : Py.truthy (transcript_py t) = true.
Proof.
  simpl. apply negb_true_iff, bool_decide_eq_false_2.
  intros H. apply map_size_empty_iff in H. by apply insert_non_empty in H.
Qed.

Lemma show_samples_page (subtitles : list Subtitle) (s : State) :
  show_samples subtitles s
  = (Ok tt,
     mkState (st_fs s)
       (st_ui s ++ ((fun sub => UiSample (sub_start sub) (sub_end sub) (sub_content sub))
                      <$> subtitles))%list
       (st_calls s)).
Proof.
  revert s. induction subtitles as [|sub rest IH]; intros s; simpl.
  - rewrite app_nil_r. by destruct s.
  - run. rewrite IH. simpl. by rewrite <- app_assoc.
Qed.

(** Making the overlays leaves the state as it is. *)
Lemma overlay_clips_state (w : World) (subtitles : list Subtitle) (clips : list TextClip)
    (s : State) :
  exists r, overlay_clips w subtitles clips s = (r, s).
Proof.
  revert clips. induction subtitles as [|sub rest IH]; intros clips; simpl.
  - by eexists.
  - run. destruct (w_TextClip w (sub_content sub) 18 "white"); [apply IH|by eexists].
Qed.

(** A failed attempt to burn the subtitles has shown nothing and has
    touched no file but the output video. *)
Lemma burn_attempt_raise (w : World) (text : string) (s s' : State) (e : exn) :
  burn_attempt w text s = (Raise e, s') ->
  st_ui s' = st_ui s /\ st_calls s' = st_calls s /\
  (forall p, p <> output_video_path -> st_fs s' !! p = st_fs s !! p).
Proof.
  unfold burn_attempt. run.
  destruct (st_fs s !! video_path) as [data|]; [|by intros [= _ <-]].
  destruct (w_VideoFileClip w data) as [clip|]; [|by intros [= _ <-]].
  destruct (w_parse w text) as [subs|]; [|by intros [= _ <-]].
  destruct (overlay_clips_state w subs [] s) as [r ->].
  destruct r as [clips|]; [|by intros [= _ <-]].
  destruct (w_write_videofile w clip clips (clip_fps clip) "libx264" "aac") as [out|];
    [|by intros [= _ <-]].
  destruct (w_close w clip); [|intros [= _ <-]; simpl].
  - destruct (w_close_composite w clip clips); [done|intros [= _ <-]; simpl].
    repeat split. intros p Hp. by rewrite lookup_insert_ne.
  - repeat split. intros p Hp. by rewrite lookup_insert_ne.
Qed.


Lemma burn_step_abort (w : World) (text video : string) (s s1 : State) (e e' : exn) :
  burn_attempt w text
    (mkState (st_fs s) (st_ui s ++ [UiStatus "Step 4/5: Burning subtitles onto video..."])
       (st_calls s)) = (Raise e, s1) ->
  st_fs s !! video_path = Some video ->
  w_copy w video = Raise e' ->
  exists s2,
    burn_step w text s = (Ok false, s2) /\
    last (st_ui s2) = Some (UiError "Could not process video with subtitles") /\
    (forall p, p <> output_video_path -> st_fs s2 !! p = st_fs s !! p).
Proof.
  intros Hburn Hvideo Hcopy.
  destruct (burn_attempt_raise _ _ _ _ _ Hburn) as (Hui & Hcalls & Hfs).
  simpl in Hui, Hcalls. pose proof (Hfs video_path ltac:(done)) as Hv. simpl in Hv.
  unfold burn_step. run. rewrite Hburn. simpl. rewrite Hv, Hvideo, Hcopy. simpl.
  eexists. split; [reflexivity|]. simpl. split; [by rewrite last_snoc|].
  intros p Hp. by apply Hfs.
Qed.

Lemma results_section_done (w : World) (t : Transcript) (o : ModelOption) (s : State)
    (video_out text : string) :
  st_fs s !! output_video_path = Some video_out ->
  st_fs s !! srt_path = Some text ->
  exists d,
    results_section w (transcript_py t) o s
    = (Ok tt,
       mkState (st_fs s)
         (st_ui s ++ results_page video_out text
            (mkStats d (length (PyStr.split (full_text t))) (length (segments t))
               (tier_model o)))
         (st_calls s)).
Proof.
  intros Hout Hsrt.
  destruct (statistics_spec w t o
              (mkState (st_fs s)
                 (st_ui s ++ [UiStatus "Step 5/5: Finalizing..."; UiProgress 100;
                    UiStatus "  Processing complete!"; UiHeading "Results";
                    UiVideo video_out;
                    UiDownload "subtitles.srt" "Download SRT" text;
                    UiTextArea "SRT Content Preview" text;
                    UiDownload "video_with_subtitles.mp4" "Download Video" video_out])
                 (st_calls s))) as [d Hd].
  exists d. unfold results_section, get_file_download_link. run.
  repeat (first [rewrite Hout | rewrite Hsrt | rewrite bool_decide_eq_true_2 by eauto];
          simpl).
  rewrite <- !app_assoc. simpl. rewrite Hd. simpl.
  rewrite <- !app_assoc. reflexivity.
Qed.

Ltac tidy := cbv beta iota; unfold with_calls; cbn [st_fs st_ui st_calls].

Lemma completed_results (front : list ui) (video_out text : string) (stats : Stats) :
  completed (front ++ results_page video_out text stats) = true.
Proof. unfold completed, results_page. by rewrite last_app_cons. Qed.

(** ** A formatting failure *)

(** Whatever fails while the entries are built, the formatter shows the
    error and returns the empty text. *)
Lemma generate_srt_failure (w : World) (transcription : pyval) (e : exn) (s : State) :
  build_subtitles transcription = Raise e ->
  generate_srt_from_transcription w transcription s
  = (Ok EmptyString,
     mkState (st_fs s) (st_ui s ++ [UiError ("Error generating SRT: " +:+ exn_msg e)])
       (st_calls s)).
Proof. intros H. unfold generate_srt_from_transcription. run. by rewrite H. Qed.

(** X26: after a formatting failure [main] carries on: whenever extraction
    and transcription succeed and building the entries raises, the error is
    shown, an empty subtitle file is written, "SRT file generated" is shown
    and step 4 is entered with the empty text. *)
Lemma main_after_formatting_failure (w : World) (video : string) (o : ModelOption)
    (transcription text : pyval) (clip : Clip) (track wav : string) (model : Model)
    (e : exn) (s : State) :
  w_VideoFileClip w video = Ok clip ->
  clip_audio clip = Some track ->
  w_write_audiofile w track "pcm_s16le" = Ok wav ->
  w_close w clip = Ok tt ->
  w_load_model w "base" = Ok model ->
  w_transcribe_file w model wav (Some "en") = Ok transcription ->
  Py.truthy transcription = true ->
  Py.getitem transcription "text" = Ok text ->
  build_subtitles transcription = Raise e ->
  w_parse w EmptyString = Ok [] ->
  exists s3,
    main w (Some video) true o s
    = (go_on ← burn_step w EmptyString;
       if go_on : bool then results_section w transcription o else mret tt) s3 /\
    st_fs s3 !! srt_path = Some EmptyString /\
    shown_errors (st_ui s3)
    = shown_errors (st_ui s) ++ ["Error generating SRT: " +:+ exn_msg e] /\
    last (st_ui s3) = Some (UiSuccess "  SRT file generated").
Proof.
  intros Hclip Htrack Hwav Hclose Hmodel Hnative Htruthy Htext Hbuild Hparse.
  unfold main. run.
  erewrite extract_audio_ok; [|simpl; apply lookup_insert_eq|eassumption..].
  tidy.
  erewrite transcribe_native; [|eassumption|simpl; apply lookup_insert_eq|eassumption].
  tidy. rewrite Htruthy, Htext.
  erewrite generate_srt_failure by eassumption. tidy.
  rewrite Hparse. simpl. eexists. split; [reflexivity|]. simpl.
  split; [apply lookup_insert_eq|]. split; [|by rewrite last_snoc].
  unfold shown_errors. rewrite !omap_app. simpl. by rewrite !app_nil_r.
Qed.

(** C6 (the code departs from it): a segment without ['text'] makes the
    formatter fail with a [KeyError]; the error is shown, but [main] does
    not stop as it does after a failed extraction or transcription: it
    writes an empty subtitle file, reports "SRT file generated", burns no
    subtitles and ends with the message that all processes completed. *)
Theorem C6_formatting_failure_is_not_fatal :
  build_subtitles no_text = Raise (KeyError "text") /\
  (forall (w : World) (s : State),
     generate_srt_from_transcription w no_text s
     = (Ok EmptyString,
        mkState (st_fs s) (st_ui s ++ [UiError "Error generating SRT: 'text'"])
          (st_calls s))) /\
  (let w := example_world (Ok no_text) (Ok "mp4") (Ok tt) in
   let s' := (main w (Some "video") true BaseFast initial).2 in
   shown_errors (st_ui s') = ["Error generating SRT: 'text'"] /\
   st_fs s' !! srt_path = Some EmptyString /\
   st_fs s' !! output_video_path = Some "mp4" /\
   UiSuccess "  SRT file generated" ∈ st_ui s' /\
   last (st_ui s') = Some UiAllDone).
Proof.
  assert (H : build_subtitles no_text = Raise (KeyError "text"))
    by (vm_compute; reflexivity).
  split; [exact H|]. split.
  - intros w s. by rewrite (generate_srt_failure w no_text _ s H).
  - repeat split; try (vm_compute; reflexivity).
    apply list_elem_of_lookup. exists 12%nat. vm_compute. reflexivity.
Qed.

(** ** A failure of the burner *)





(** ** The burner kept as a function *)

(** Making the text clips leaves the state as it is. *)
Lemma burn_clips_state (w : World) (subtitles : list Subtitle) (clips : list TextClip)
    (s : State) :
  exists r, burn_clips w subtitles clips s = (r, s).
Proof.
  revert clips. induction subtitles as [|sub rest IH]; intros clips; simpl.
  - by eexists.
  - run. destruct (w_TextClip w (sub_content sub) 28 "white"); [apply IH|by eexists].
Qed.

(** [burn_subtitles_onto_video] parses the subtitle text first, and returns
    [True] or [False] whatever the libraries answer. *)
Lemma burn_subtitles_returns (w : World) (video srt_content output : string) (s : State) :
  exists (b : bool) (s' : State),
    burn_subtitles_onto_video w video srt_content output s = (Ok b, s') /\
    (forall e, w_parse w srt_content = Raise e -> b = false).
Proof.
  unfold burn_subtitles_onto_video. run.
  destruct (w_parse w srt_content) as [subs|e0];
    [|do 2 eexists; split; [reflexivity|done]].
  destruct (st_fs s !! video) as [data|];
    [|do 2 eexists; split; [reflexivity|by intros ? [=]]].
  destruct (w_VideoFileClip w data) as [clip|];
    [|do 2 eexists; split; [reflexivity|by intros ? [=]]].
  destruct (burn_clips_state w subs [] s) as [r ->].
  destruct r as [clips|];
    [|do 2 eexists; split; [reflexivity|by intros ? [=]]].
  destruct (w_write_videofile w clip clips (clip_fps clip) "libx264" "aac") as [out|];
    [|do 2 eexists; split; [reflexivity|by intros ? [=]]].
  destruct (w_close w clip);
    [|do 2 eexists; split; [reflexivity|by intros ? [=]]].
  destruct clips; simpl.
  - destruct (w_close w clip); do 2 eexists; (split; [reflexivity|by intros ? [=]]).
  - destruct (w_close_composite w clip _);
      do 2 eexists; (split; [reflexivity|by intros ? [=]]).
Qed.

(** ** The reference reader and writer of the SubRip format *)

#[local] Arguments String.append !s1 s2 : simpl nomatch.























(** ** The round trip of a transcript *)








(** * Further properties *)

(** ** The dot products *)


Lemma sum_of_products_app (a1 a2 b1 b2 : list Z) :
  length a1 = length b1 ->
  sum_of_products (a1 ++ a2) (b1 ++ b2) = sum_of_products a1 b1 + sum_of_products a2 b2.
Proof.
  revert b1. induction a1 as [|x a1 IH]; intros [|y b1] H; simpl in *; try done.
  rewrite IH by lia. lia.
Qed.

Lemma sum_of_products_scale (k : Z) (a b : list Z) :
  sum_of_products ((fun x => k * x) <$> a) b = k * sum_of_products a b.
Proof.
  revert b. induction a as [|x a IH]; intros [|y b]; simpl; try lia.
  rewrite IH. lia.
Qed.

Lemma dot_product_simple_equal_length (a b : list Z) :
  length a = length b -> dot_product_simple a b = Ok (sum_of_products a b).
Proof.
  intros H. unfold dot_product_simple.
  rewrite bool_decide_eq_false_2 by (intros Hne; by apply Hne).
  by rewrite simple_loop_sum.
Qed.

(** X1: [dot_product_simple] returns the sum of the products, on integers of
    any size, exactly when the lists have the same length, and raises the
    [ValueError] otherwise; the indexing of the loop never fails. *)
Theorem dot_product_simple_outcome (a b : list Z) :
  dot_product_simple a b
  = if bool_decide (length a = length b) then Ok (sum_of_products a b)
    else Raise (Exn "ValueError" "Lists must be of the same length").
Proof.
  case_bool_decide as H.
  - by apply dot_product_simple_equal_length.
  - unfold dot_product_simple. by rewrite bool_decide_eq_true_2.
Qed.



(** X3: [dot_product_simple] is additive over concatenation of lists of
    matching lengths and linear under scaling of one list. *)
Theorem dot_product_simple_linear (k : Z) (a1 a2 b1 b2 : list Z) :
  length a1 = length b1 -> length a2 = length b2 ->
  dot_product_simple (a1 ++ a2) (b1 ++ b2)
    = Ok (sum_of_products a1 b1 + sum_of_products a2 b2) /\
  dot_product_simple a1 b1 = Ok (sum_of_products a1 b1) /\
  dot_product_simple a2 b2 = Ok (sum_of_products a2 b2) /\
  dot_product_simple ((fun x => k * x) <$> a1) b1 = Ok (k * sum_of_products a1 b1).
Proof.
  intros H1 H2. repeat split.
  - rewrite dot_product_simple_equal_length by (rewrite !length_app; lia).
    by rewrite sum_of_products_app.
  - by apply dot_product_simple_equal_length.
  - by apply dot_product_simple_equal_length.
  - rewrite dot_product_simple_equal_length by (by rewrite length_fmap).
    by rewrite sum_of_products_scale.
Qed.

Lemma dot_product_simple_linear_witness :
  dot_product_simple ([1; 2] ++ [3]) ([4; 5] ++ [6]) = Ok (14 + 18) /\
  dot_product_simple ((fun x => 2 * x) <$> [1; 2]) [4; 5] = Ok (2 * 14).
Proof.
  destruct (dot_product_simple_linear 2 [1; 2] [3] [4; 5] [6] eq_refl eq_refl)
    as (H1 & _ & _ & H2).
  split; [exact H1 | exact H2].
Defined.

(** ** The formatter on any transcription *)

Lemma make_subtitle_index (i : Z) (item : pyval) (sub : Subtitle) :
  make_subtitle i item = Ok sub -> sub_index sub = i + 1.
Proof.
  unfold make_subtitle. run.
  destruct (Py.getitem item "start") as [v1|]; [|done]. simpl.
  destruct (timedelta_seconds v1); [|done]. simpl.
  destruct (Py.getitem item "end") as [v2|]; [|done]. simpl.
  destruct (timedelta_seconds v2); [|done]. simpl.
  destruct (Py.getitem item "text") as [v3|]; [|done]. simpl.
  destruct (Py.strip v3); [|done]. simpl. by intros [= <-].
Qed.

(** The loop returns only if every item makes an entry, and then it has
    appended these entries in order. *)
Lemma subtitles_loop_ok (k : nat) (items : list pyval) (acc subs : list Subtitle) :
  subtitles_loop (Z.of_nat k) items acc = Ok subs ->
  exists new,
    subs = acc ++ new /\ length new = length items /\
    forall i item, items !! i = Some item ->
      exists sub, make_subtitle (Z.of_nat (k + i)) item = Ok sub /\ new !! i = Some sub.
Proof.
  revert k acc. induction items as [|item rest IH]; intros k acc; simpl.
  - intros [= <-]. exists []. rewrite app_nil_r. repeat split. by intros i item.
  - destruct (make_subtitle (Z.of_nat k) item) as [sub|] eqn:Hsub; simpl; [|done].
    replace (Z.of_nat k + 1) with (Z.of_nat (S k)) by lia.
    intros Hloop. destruct (IH _ _ Hloop) as (new & -> & Hlen & Hall).
    exists (sub :: new). rewrite <- app_assoc. repeat split; [simpl; lia|].
    intros [|i] it Hit; simpl in *.
    + injection Hit as <-. exists sub. by rewrite Nat.add_0_r.
    + destruct (Hall i it Hit) as (sub' & Hmk & Hnew). exists sub'.
      by replace (k + S i)%nat with (S k + i)%nat by lia.
Qed.

(** The loop raises as soon as an item does not make an entry. *)
Lemma subtitles_loop_raise (k : nat) (items : list pyval) (acc : list Subtitle)
    (i : nat) (item : pyval) (e : exn) :
  items !! i = Some item ->
  make_subtitle (Z.of_nat (k + i)) item = Raise e ->
  exists e', subtitles_loop (Z.of_nat k) items acc = Raise e'.
Proof.
  intros Hitem Hraise.
  destruct (subtitles_loop (Z.of_nat k) items acc) as [subs|e'] eqn:Hloop; [|by eexists].
  destruct (subtitles_loop_ok _ _ _ _ Hloop) as (new & _ & _ & Hall).
  destruct (Hall i item Hitem) as (sub & Hsub & _). congruence.
Qed.


(** X5: a transcription without the key ['segments'] is formatted as one
    without segments: the empty list of entries is composed and no error is
    shown by the formatter itself. *)
Theorem generate_srt_without_segments (w : World) (d : gmap string pyval) (s : State) :
  d !! "segments" = None ->
  build_subtitles (PDict d) = Ok [] /\
  generate_srt_from_transcription w (PDict d) s
  = match w_compose w [] with
    | Ok text => (Ok text, s)
    | Raise e =>
        (Ok EmptyString,
         mkState (st_fs s) (st_ui s ++ [UiError ("Error generating SRT: " +:+ exn_msg e)])
           (st_calls s))
    end.
Proof.
  intros Hd.
  assert (H : build_subtitles (PDict d) = Ok []).
  { unfold build_subtitles. simpl. by rewrite Hd. }
  split; [exact H|]. unfold generate_srt_from_transcription. rewrite H. run.
  by destruct (w_compose w []).
Qed.

Lemma generate_srt_without_segments_witness :
  generate_srt_from_transcription (example_world (Ok PNone) (Ok "mp4") (Ok tt))
    (PDict {[ "text" := PStr "hi" ]}) initial
  = (Ok EmptyString, initial).
Proof.
  assert (H : ({[ "text" := PStr "hi" ]} : gmap string pyval) !! "segments" = None)
    by (vm_compute; reflexivity).
  destruct (generate_srt_without_segments (example_world (Ok PNone) (Ok "mp4") (Ok tt))
              {[ "text" := PStr "hi" ]} initial H) as [_ Hgen].
  exact Hgen.
Defined.

(** X6: one segment that does not make an entry (a missing key, a time that
    is not a number, a text that is not a string) loses all the subtitles:
    no entry is composed, the error is shown and the text is empty. *)
Theorem one_bad_segment_fails_all (w : World) (d : gmap string pyval)
    (items : list pyval) (i : nat) (item : pyval) (e : exn) (s : State) :
  d !! "segments" = Some (PList items) ->
  items !! i = Some item ->
  make_subtitle (Z.of_nat i) item = Raise e ->
  exists e',
    build_subtitles (PDict d) = Raise e' /\
    generate_srt_from_transcription w (PDict d) s
    = (Ok EmptyString,
       mkState (st_fs s) (st_ui s ++ [UiError ("Error generating SRT: " +:+ exn_msg e')])
         (st_calls s)).
Proof.
  intros Hd Hitem Hraise.
  destruct (subtitles_loop_raise 0 items [] i item e Hitem Hraise) as [e' He'].
  exists e'.
  assert (H : build_subtitles (PDict d) = Raise e').
  { unfold build_subtitles. simpl. rewrite Hd. simpl. exact He'. }
  split; [exact H|]. unfold generate_srt_from_transcription. rewrite H. by run.
Qed.

Lemma one_bad_segment_fails_all_witness :
  exists e',
    build_subtitles
      (PDict {[ "segments" := PList [segment_py (mkSegment 0 1 "a" ∅); PDict ∅] ]})
    = Raise e'.
Proof.
  assert (H : ({[ "segments" := PList [segment_py (mkSegment 0 1 "a" ∅); PDict ∅] ]}
               : gmap string pyval) !! "segments"
              = Some (PList [segment_py (mkSegment 0 1 "a" ∅); PDict ∅]))
    by (vm_compute; reflexivity).
  destruct (one_bad_segment_fails_all (example_world (Ok PNone) (Ok "mp4") (Ok tt))
              _ _ 1%nat (PDict ∅) (KeyError "start") initial H eq_refl eq_refl)
    as (e' & He' & _).
  exists e'. exact He'.
Defined.

(** X7: whatever the transcription is, when the entries are built there is
    one entry per item of ['segments'], in the order of the items, and the
    entries are numbered 1, 2, ... *)
Theorem built_entries_are_numbered (transcription : pyval) (subs : list Subtitle) :
  build_subtitles transcription = Ok subs ->
  exists items,
    Py.get transcription "segments" (PList []) ≫= Py.iter = Ok items /\
    length subs = length items /\
    sub_index <$> subs = Z.of_nat <$> seq 1 (length items) /\
    forall i item, items !! i = Some item ->
      exists sub, make_subtitle (Z.of_nat i) item = Ok sub /\ subs !! i = Some sub.
Proof.
  unfold build_subtitles. run.
  destruct (match Py.get transcription "segments" (PList []) with
            | Ok a => Py.iter a | Raise e => Raise e end) as [items|] eqn:Hitems;
    simpl; [|done].
  intros Hloop. change 0 with (Z.of_nat 0) in Hloop.
  destruct (subtitles_loop_ok _ _ _ _ Hloop) as (new & -> & Hlen & Hall).
  simpl. exists items. repeat split; [done| |done].
  apply list_eq. intros i. rewrite !list_lookup_fmap.
  destruct (items !! i) as [item|] eqn:Hi.
  - destruct (Hall i item Hi) as (sub & Hsub & ->). simpl.
    apply lookup_lt_Some in Hi. rewrite lookup_seq_lt by done. simpl.
    rewrite (make_subtitle_index _ _ _ Hsub). f_equal. lia.
  - apply lookup_ge_None in Hi. rewrite lookup_seq_ge by done.
    rewrite lookup_ge_None_2 by lia. done.
Qed.

Lemma built_entries_are_numbered_witness :
  exists items,
    Py.get (transcript_py backwards) "segments" (PList []) ≫= Py.iter = Ok items /\
    length [mkSubtitle 1 2000000 1000000 "x"; mkSubtitle 2 3000000 3000000 "y"]
    = length items.
Proof.
  assert (H : build_subtitles (transcript_py backwards)
              = Ok [mkSubtitle 1 2000000 1000000 "x"; mkSubtitle 2 3000000 3000000 "y"])
    by (vm_compute; reflexivity).
  destruct (built_entries_are_numbered _ _ H) as (items & H1 & H2 & _).
  exists items. split; [exact H1 | exact H2].
Defined.

(** ** What stripping removes *)






(** ** Rounding keeps the order of times *)






(** ** The audio extractor: files and messages *)

#[local] Arguments String.append : simpl never.



(** X11: when closing the clip raises after the audio was written, the
    extractor returns [False] and shows the error although the audio file is
    in place. *)
Theorem extract_audio_close_failure (w : World) (video audio_out data : string)
    (clip : Clip) (track wav : string) (e : exn) (s : State) :
  st_fs s !! video = Some data ->
  w_VideoFileClip w data = Ok clip ->
  clip_audio clip = Some track ->
  w_write_audiofile w track "pcm_s16le" = Ok wav ->
  w_close w clip = Raise e ->
  exists s',
    extract_audio_from_video w video audio_out s = (Ok false, s') /\
    st_fs s' !! audio_out = Some wav /\
    st_ui s' = st_ui s ++ [UiError ("Error extracting audio: " +:+ exn_msg e)].
Proof.
  intros Hfile Hclip Htrack Hwav Hclose. unfold extract_audio_from_video. run. feed.
  eexists. split; [reflexivity|]. simpl. split; [apply lookup_insert_eq|done].
Qed.

Lemma extract_audio_close_failure_witness :
  exists s',
    extract_audio_from_video
      (studio_world (Ok (mkClip (Some "pcm") 25 10 "video"))
         (Raise (Exn "OSError" "reader")) (Ok (ModelHandle "base")) (Ok PNone)
         (Raise (Exn "E" "none")))
      video_path audio_path (mkState {[ video_path := "video" ]} [] [])
    = (Ok false, s') /\
    st_fs s' !! audio_path = Some "wav".
Proof.
  assert (Hfile : st_fs (mkState {[ video_path := "video" ]} [] []) !! video_path
                  = Some "video") by (vm_compute; reflexivity).
  destruct (extract_audio_close_failure
              (studio_world (Ok (mkClip (Some "pcm") 25 10 "video"))
                 (Raise (Exn "OSError" "reader")) (Ok (ModelHandle "base")) (Ok PNone)
                 (Raise (Exn "E" "none")))
              video_path audio_path "video" (mkClip (Some "pcm") 25 10 "video") "pcm" "wav"
              (Exn "OSError" "reader") _ Hfile eq_refl eq_refl eq_refl eq_refl)
    as (s' & H1 & H2 & _).
  exists s'. split; [exact H1 | exact H2].
Defined.

(** ** The transcriber: files, messages and failures *)



(** X13: when the model cannot be loaded, no transcription is attempted: the
    only library call is the loading of "base", the error is shown and
    [None] is returned. *)
Theorem transcribe_model_failure (w : World) (path : string) (e : exn) (s : State) :
  w_load_model w "base" = Raise e ->
  transcribe_audio_whisper w path s
  = (Ok PNone,
     mkState (st_fs s) (st_ui s ++ [UiError ("Error in transcription: " +:+ exn_msg e)])
       (st_calls s ++ [CLoadModel "base"])).
Proof. intros H. unfold transcribe_audio_whisper. run. by feed. Qed.

Lemma transcribe_model_failure_witness :
  transcribe_audio_whisper
    (studio_world (Ok (mkClip (Some "pcm") 25 10 "video")) (Ok tt)
       (Raise (Exn "RuntimeError" "download failed")) (Ok PNone) (Raise (Exn "E" "none")))
    audio_path initial
  = (Ok PNone,
     mkState ∅ [UiError "Error in transcription: download failed"] [CLoadModel "base"]).
Proof.
  apply (transcribe_model_failure
           (studio_world (Ok (mkClip (Some "pcm") 25 10 "video")) (Ok tt)
              (Raise (Exn "RuntimeError" "download failed")) (Ok PNone)
              (Raise (Exn "E" "none")))
           audio_path (Exn "RuntimeError" "download failed") initial eq_refl).
Defined.

(** X14: when whisper cannot decode the file and pydub cannot read it
    either, the error shown is the one of pydub; the error of whisper's own
    decoding is dropped, and no resampling or second transcription is
    attempted. *)
Theorem transcribe_both_tiers_fail (w : World) (path data : string) (model : Model)
    (e1 e2 : exn) (s : State) :
  w_load_model w "base" = Ok model ->
  st_fs s !! path = Some data ->
  w_transcribe_file w model data (Some "en") = Raise e1 ->
  w_from_file w data = Raise e2 ->
  transcribe_audio_whisper w path s
  = (Ok PNone,
     mkState (st_fs s) (st_ui s ++ [UiError ("Error in transcription: " +:+ exn_msg e2)])
       (st_calls s ++ [CLoadModel "base"; CTranscribeFile (Some "en"); CFromFile])).
Proof.
  intros. unfold transcribe_audio_whisper. run. feed. by rewrite <- !app_assoc.
Qed.

Lemma transcribe_both_tiers_fail_witness :
  transcribe_audio_whisper
    (studio_world (Ok (mkClip (Some "pcm") 25 10 "video")) (Ok tt)
       (Ok (ModelHandle "base")) (Raise (Exn "RuntimeError" "ffmpeg"))
       (Raise (Exn "CouldntDecodeError" "not audio")))
    audio_path (mkState {[ audio_path := "wav" ]} [] [])
  = (Ok PNone,
     mkState {[ audio_path := "wav" ]} [UiError "Error in transcription: not audio"]
       [CLoadModel "base"; CTranscribeFile (Some "en"); CFromFile]).
Proof.
  assert (Hfile : st_fs (mkState {[ audio_path := "wav" ]} [] []) !! audio_path
                  = Some "wav") by (vm_compute; reflexivity).
  apply (transcribe_both_tiers_fail
           (studio_world (Ok (mkClip (Some "pcm") 25 10 "video")) (Ok tt)
              (Ok (ModelHandle "base")) (Raise (Exn "RuntimeError" "ffmpeg"))
              (Raise (Exn "CouldntDecodeError" "not audio")))
           audio_path "wav" (ModelHandle "base") (Exn "RuntimeError" "ffmpeg")
           (Exn "CouldntDecodeError" "not audio") _ eq_refl Hfile eq_refl eq_refl).
Defined.



(** ** Which files a computation writes *)

Lemma touches_only_ret {A} (paths : list string) (a : A) : touches_only paths (mret a).
Proof. intros s r s' [= _ <-] p _. done. Qed.

Lemma touches_only_lift {A} (paths : list string) (r : result A) :
  touches_only paths (lift r).
Proof. intros s r' s' [= _ <-] p _. done. Qed.

Lemma touches_only_show (paths : list string) (u : ui) : touches_only paths (show u).
Proof. intros s r s' [= _ <-] p _. done. Qed.

Lemma touches_only_called (paths : list string) (c : call) :
  touches_only paths (called c).
Proof. intros s r s' [= _ <-] p _. done. Qed.

Lemma touches_only_read_file (paths : list string) (path : string) :
  touches_only paths (read_file path).
Proof.
  intros s r s' H p _. unfold read_file in H.
  destruct (st_fs s !! path); by injection H as _ <-.
Qed.

Lemma touches_only_path_exists (paths : list string) (path : string) :
  touches_only paths (path_exists path).
Proof. intros s r s' [= _ <-] p _. done. Qed.

Lemma touches_only_write_file (paths : list string) (path data : string) :
  path ∈ paths -> touches_only paths (write_file path data).
Proof.
  intros Hin s r s' [= _ <-] p Hp. simpl. apply lookup_insert_ne. by intros ->.
Qed.

Lemma touches_only_bind {A B} (paths : list string) (m : M A) (f : A -> M B) :
  touches_only paths m -> (forall a, touches_only paths (f a)) ->
  touches_only paths (m ≫= f).
Proof.
  intros Hm Hf s r s' H p Hp. unfold mbind, M_bind in H.
  destruct (m s) as [[a|e] s1] eqn:Hms.
  - rewrite (Hf a _ _ _ H p Hp). by apply (Hm _ _ _ Hms).
  - injection H as _ <-. by apply (Hm _ _ _ Hms).
Qed.

Lemma touches_only_try {A} (paths : list string) (m : M A) (h : exn -> M A) :
  touches_only paths m -> (forall e, touches_only paths (h e)) ->
  touches_only paths (try_except m h).
Proof.
  intros Hm Hh s r s' H p Hp. unfold try_except in H.
  destruct (m s) as [[a|e] s1] eqn:Hms.
  - injection H as _ <-. by apply (Hm _ _ _ Hms).
  - rewrite (Hh e _ _ _ H p Hp). by apply (Hm _ _ _ Hms).
Qed.


Ltac in_paths := apply list_elem_of_In; simpl; auto 10.


(** Decompose a computation into its calls. *)
Ltac frame :=
  repeat match goal with
         | |- touches_only _ (mret _) => apply touches_only_ret
         | |- touches_only _ (lift _) => apply touches_only_lift
         | |- touches_only _ (show _) => apply touches_only_show
         | |- touches_only _ (called _) => apply touches_only_called
         | |- touches_only _ (read_file _) => apply touches_only_read_file
         | |- touches_only _ (path_exists _) => apply touches_only_path_exists
         | |- touches_only _ (write_file _ _) =>
             apply touches_only_write_file; in_paths
         | |- touches_only _ (mbind _ _) => apply touches_only_bind; [|intros ?]
         | |- touches_only _ (try_except _ _) => apply touches_only_try; [|intros ?]
         | |- touches_only _ (match ?x with _ => _ end) => destruct x
         end.







Lemma touches_only_burn_clips (paths : list string) (w : World)
    (subtitles : list Subtitle) (clips : list TextClip) :
  touches_only paths (burn_clips w subtitles clips).
Proof. revert clips. induction subtitles; intros clips; simpl; frame. apply IHsubtitles. Qed.







(** ** Overlays and the burning of subtitles *)

Lemma overlay_clips_all (w : World) (subtitles : list Subtitle) (clips : list TextClip)
    (s : State) :
  (forall sub, sub ∈ subtitles -> w_TextClip w (sub_content sub) 18 "white" = Ok tt) ->
  overlay_clips w subtitles clips s = (Ok (clips ++ (overlay_of <$> subtitles)), s).
Proof.
  revert clips. induction subtitles as [|sub rest IH]; intros clips Hall; simpl.
  - by rewrite app_nil_r.
  - run. rewrite (Hall sub) by apply list_elem_of_here.
    rewrite IH by (intros x Hx; apply Hall; by apply list_elem_of_further).
    by rewrite <- app_assoc.
Qed.







(** ** Runs of [main] *)

Lemma shown_errors_samples (subtitles : list Subtitle) :
  shown_errors (sample_page subtitles) = [] /\
  shown_warnings (sample_page subtitles) = [].
Proof.
  unfold sample_page. induction (take 5 subtitles) as [|sub rest [IH1 IH2]]; [done|].
  split; simpl; [exact IH1 | exact IH2].
Qed.

Lemma burn_step_success (w : World) (text video out : string) (clip : Clip)
    (subs : list Subtitle) (s : State) :
  st_fs s !! video_path = Some video ->
  w_VideoFileClip w video = Ok clip ->
  w_parse w text = Ok subs ->
  (forall sub, sub ∈ subs -> w_TextClip w (sub_content sub) 18 "white" = Ok tt) ->
  w_write_videofile w clip (overlay_of <$> subs) (clip_fps clip) "libx264" "aac" = Ok out ->
  w_close w clip = Ok tt ->
  w_close_composite w clip (overlay_of <$> subs) = Ok tt ->
  burn_step w text s
  = (Ok true,
     mkState (<[output_video_path := out]> (st_fs s))
       (st_ui s ++ [UiStatus "Step 4/5: Burning subtitles onto video...";
                    UiProgress 80; UiSuccess "  Subtitles burned onto video"])
       (st_calls s)).
Proof.
  intros Hvideo Hclip Hparse Hclips Hout Hclose Hclose2.
  unfold burn_step, burn_attempt. run. rewrite Hvideo, Hclip, Hparse.
  rewrite overlay_clips_all by done. simpl. rewrite Hout, Hclose, Hclose2. simpl.
  by rewrite <- !app_assoc.
Qed.

(** A run in which every stage succeeds. *)
Lemma main_success_run (w : World) (video : string) (o : ModelOption)
    (t : Transcript) (clip : Clip) (track wav text out : string) (model : Model)
    (subs : list Subtitle) (s : State) :
  w_VideoFileClip w video = Ok clip ->
  clip_audio clip = Some track ->
  w_write_audiofile w track "pcm_s16le" = Ok wav ->
  w_close w clip = Ok tt ->
  w_load_model w "base" = Ok model ->
  w_transcribe_file w model wav (Some "en") = Ok (transcript_py t) ->
  w_compose w (imap entry_of (segments t)) = Ok text ->
  w_parse w text = Ok subs ->
  (forall sub, sub ∈ subs -> w_TextClip w (sub_content sub) 18 "white" = Ok tt) ->
  w_write_videofile w clip (overlay_of <$> subs) (clip_fps clip) "libx264" "aac" = Ok out ->
  w_close_composite w clip (overlay_of <$> subs) = Ok tt ->
  exists d,
    main w (Some video) true o s
    = (Ok tt,
       mkState
         (<[output_video_path := out]>
            (<[srt_path := text]> (<[audio_path := wav]> (<[video_path := video]> (st_fs s)))))
         (st_ui s ++ progress_page video (PStr (full_text t)) ++ sample_page subs ++
          [UiStatus "Step 4/5: Burning subtitles onto video...";
           UiProgress 80; UiSuccess "  Subtitles burned onto video"] ++
          results_page out text
            (mkStats d (length (PyStr.split (full_text t))) (length (segments t))
               (tier_model o)))
         (st_calls s ++ [CLoadModel "base"; CTranscribeFile (Some "en")])).
Proof.
  intros Hclip Htrack Hwav Hclose Hmodel Hnative Hcompose Hparse Hclips Hout Hclose2.
  unfold main. run.
  erewrite extract_audio_ok; [|simpl; apply lookup_insert_eq|eassumption..].
  tidy.
  erewrite transcribe_native; [|eassumption|simpl; apply lookup_insert_eq|eassumption].
  tidy. rewrite transcript_truthy, transcript_text.
  rewrite generate_srt_transcript, Hcompose. tidy.
  rewrite Hparse, show_samples_page. tidy.
  erewrite burn_step_success; [|simpl|eassumption..].
  2: { do 2 rewrite lookup_insert_ne by done. apply lookup_insert_eq. }
  tidy.
  edestruct (results_section_done w t o) as [d ->];
    [simpl; apply lookup_insert_eq
    |simpl; rewrite lookup_insert_ne by done; apply lookup_insert_eq|].
  tidy. exists d. do 2 f_equal.
  unfold progress_page, upload_page, sample_page. rewrite <- !app_assoc. reflexivity.
Qed.

(** X20: when every stage succeeds, [main] runs to its last message without
    showing an error or a warning; the working directory then holds the
    uploaded video, the extracted audio, the composed subtitle text and the
    encoded video, both artifacts are offered for download, and whisper was
    called once to load "base" and once to transcribe the audio file. *)
Theorem main_success (w : World) (video : string) (o : ModelOption)
    (t : Transcript) (clip : Clip) (track wav text out : string) (model : Model)
    (subs : list Subtitle) (s : State) :
  w_VideoFileClip w video = Ok clip ->
  clip_audio clip = Some track ->
  w_write_audiofile w track "pcm_s16le" = Ok wav ->
  w_close w clip = Ok tt ->
  w_load_model w "base" = Ok model ->
  w_transcribe_file w model wav (Some "en") = Ok (transcript_py t) ->
  w_compose w (imap entry_of (segments t)) = Ok text ->
  w_parse w text = Ok subs ->
  (forall sub, sub ∈ subs -> w_TextClip w (sub_content sub) 18 "white" = Ok tt) ->
  w_write_videofile w clip (overlay_of <$> subs) (clip_fps clip) "libx264" "aac" = Ok out ->
  w_close_composite w clip (overlay_of <$> subs) = Ok tt ->
  let r := main w (Some video) true o s in
  r.1 = Ok tt /\
  completed (st_ui r.2) = true /\
  st_fs r.2
  = <[output_video_path := out]>
      (<[srt_path := text]> (<[audio_path := wav]> (<[video_path := video]> (st_fs s)))) /\
  st_calls r.2 = st_calls s ++ [CLoadModel "base"; CTranscribeFile (Some "en")] /\
  shown_errors (st_ui r.2) = shown_errors (st_ui s) /\
  shown_warnings (st_ui r.2) = shown_warnings (st_ui s) /\
  UiDownload "subtitles.srt" "Download SRT" text ∈ st_ui r.2 /\
  UiDownload "video_with_subtitles.mp4" "Download Video" out ∈ st_ui r.2.
Proof.
  intros Hclip Htrack Hwav Hclose Hmodel Hnative Hcompose Hparse Hclips Hout Hclose2 r.
  destruct (main_success_run w video o t clip track wav text out model subs s)
    as [d Hrun]; try done.
  subst r. rewrite Hrun. cbn [fst snd st_ui st_fs st_calls].
  destruct (shown_errors_samples subs) as [He Hw].
  split; [done|]. split.
  { rewrite !app_assoc. apply completed_results. }
  split; [done|]. split; [done|].
  split; [unfold shown_errors in *; rewrite !omap_app, He; simpl; by rewrite app_nil_r|].
  split; [unfold shown_warnings in *; rewrite !omap_app, Hw; simpl; by rewrite app_nil_r|].
  unfold results_page. rewrite !elem_of_app, !elem_of_cons. tauto.
Qed.

Lemma main_success_witness :
  let r := main (example_world (Ok (transcript_py hello_world)) (Ok "mp4") (Ok tt))
             (Some "video") true BaseFast initial in
  r.1 = Ok tt /\ completed (st_ui r.2) = true /\
  shown_errors (st_ui r.2) = [] /\ shown_warnings (st_ui r.2) = [].
Proof.
  intros r.
  destruct (main_success (example_world (Ok (transcript_py hello_world)) (Ok "mp4") (Ok tt))
              "video" BaseFast hello_world (mkClip (Some "pcm") 25 10 "video") "pcm" "wav"
              (SubRip.compose (imap entry_of (segments hello_world))) "mp4"
              (ModelHandle "base") [mkSubtitle 1 1000000 2000000 "hello world"] initial
              eq_refl eq_refl eq_refl eq_refl eq_refl eq_refl eq_refl eq_refl
              (fun _ _ => eq_refl) eq_refl eq_refl)
    as (H1 & H2 & _ & _ & H3 & H4 & _).
  repeat split; assumption.
Defined.

Lemma extract_audio_silent (w : World) (video audio_out data : string) (clip : Clip)
    (s : State) :
  st_fs s !! video = Some data ->
  w_VideoFileClip w data = Ok clip ->
  clip_audio clip = None ->
  extract_audio_from_video w video audio_out s = (Ok false, s).
Proof. intros. unfold extract_audio_from_video. run. by feed. Qed.

Lemma extract_audio_undecodable (w : World) (video audio_out data : string) (e : exn)
    (s : State) :
  st_fs s !! video = Some data ->
  w_VideoFileClip w data = Raise e ->
  extract_audio_from_video w video audio_out s
  = (Ok false,
     mkState (st_fs s) (st_ui s ++ [UiError ("Error extracting audio: " +:+ exn_msg e)])
       (st_calls s)).
Proof. intros. unfold extract_audio_from_video. run. by feed. Qed.

(** X21: for a video without audio track, and for a video that cannot be
    decoded, [main] stops after step 1 with "Failed to extract audio": no
    model is loaded, nothing is transcribed, and no file is written but the
    uploaded video. *)
Theorem main_stops_after_failed_extraction (w : World) (video : string)
    (o : ModelOption) (s : State) :
  (forall clip,
     w_VideoFileClip w video = Ok clip -> clip_audio clip = None ->
     main w (Some video) true o s
     = (Ok tt,
        mkState (<[video_path := video]> (st_fs s))
          (st_ui s ++ upload_page video ++ [UiError "Failed to extract audio"])
          (st_calls s))) /\
  (forall e,
     w_VideoFileClip w video = Raise e ->
     main w (Some video) true o s
     = (Ok tt,
        mkState (<[video_path := video]> (st_fs s))
          (st_ui s ++ upload_page video ++
           [UiError ("Error extracting audio: " +:+ exn_msg e);
            UiError "Failed to extract audio"])
          (st_calls s))).
Proof.
  split.
  - intros clip Hclip Hsilent. unfold main. run.
    erewrite extract_audio_silent; [|simpl; apply lookup_insert_eq|eassumption..].
    tidy. unfold upload_page. by rewrite <- !app_assoc.
  - intros e Hclip. unfold main. run.
    erewrite extract_audio_undecodable; [|simpl; apply lookup_insert_eq|eassumption].
    tidy. unfold upload_page. by rewrite <- !app_assoc.
Qed.

Lemma main_stops_after_failed_extraction_witness :
  main (studio_world (Ok (mkClip None 25 10 "video")) (Ok tt) (Ok (ModelHandle "base"))
          (Ok (transcript_py hello_world)) (Raise (Exn "E" "none")))
    (Some "video") true BaseFast initial
  = (Ok tt,
     mkState {[ video_path := "video" ]}
       (upload_page "video" ++ [UiError "Failed to extract audio"]) []).
Proof.
  destruct (main_stops_after_failed_extraction
              (studio_world (Ok (mkClip None 25 10 "video")) (Ok tt)
                 (Ok (ModelHandle "base")) (Ok (transcript_py hello_world))
                 (Raise (Exn "E" "none")))
              "video" BaseFast initial) as [H _].
  exact (H (mkClip None 25 10 "video") eq_refl eq_refl).
Defined.

(** X22: a transcription that is empty (an empty dictionary, [None]) stops
    [main] after step 2 with "Transcription failed" although no call has
    raised: no subtitle file and no output video are written. *)
Theorem main_stops_on_empty_transcription (w : World) (video : string)
    (o : ModelOption) (v : pyval) (clip : Clip) (track wav : string) (model : Model)
    (s : State) :
  w_VideoFileClip w video = Ok clip ->
  clip_audio clip = Some track ->
  w_write_audiofile w track "pcm_s16le" = Ok wav ->
  w_close w clip = Ok tt ->
  w_load_model w "base" = Ok model ->
  w_transcribe_file w model wav (Some "en") = Ok v ->
  Py.truthy v = false ->
  main w (Some video) true o s
  = (Ok tt,
     mkState (<[audio_path := wav]> (<[video_path := video]> (st_fs s)))
       (st_ui s ++ upload_page video ++
        [UiProgress 20; UiSuccess "  Audio extracted successfully";
         UiStatus "Step 2/5: Transcribing audio using AI...";
         UiError "Transcription failed"])
       (st_calls s ++ [CLoadModel "base"; CTranscribeFile (Some "en")])).
Proof.
  intros Hclip Htrack Hwav Hclose Hmodel Hnative Hfalsy.
  unfold main. run.
  erewrite extract_audio_ok; [|simpl; apply lookup_insert_eq|eassumption..].
  tidy.
  erewrite transcribe_native; [|eassumption|simpl; apply lookup_insert_eq|eassumption].
  tidy. rewrite Hfalsy. tidy. unfold upload_page. by rewrite <- !app_assoc.
Qed.

Lemma main_stops_on_empty_transcription_witness :
  (main (example_world (Ok (PDict ∅)) (Ok "mp4") (Ok tt)) (Some "video") true BaseFast
     initial).1 = Ok tt /\
  last (st_ui (main (example_world (Ok (PDict ∅)) (Ok "mp4") (Ok tt)) (Some "video") true
                 BaseFast initial).2) = Some (UiError "Transcription failed").
Proof.
  assert (Hf : Py.truthy (PDict ∅) = false) by (vm_compute; reflexivity).
  rewrite (main_stops_on_empty_transcription
             (example_world (Ok (PDict ∅)) (Ok "mp4") (Ok tt)) "video" BaseFast (PDict ∅)
             (mkClip (Some "pcm") 25 10 "video") "pcm" "wav" (ModelHandle "base") initial
             eq_refl eq_refl eq_refl eq_refl eq_refl eq_refl Hf).
  split; reflexivity.
Defined.

(** X23: a transcription that is not empty but has no ['text'] makes [main]
    raise the [KeyError] at the display of the transcription: the exception
    is not caught, and no subtitle file is written. *)
Theorem main_raises_without_text (w : World) (video : string) (o : ModelOption)
    (transcription : pyval) (clip : Clip) (track wav : string) (model : Model)
    (e : exn) (s : State) :
  w_VideoFileClip w video = Ok clip ->
  clip_audio clip = Some track ->
  w_write_audiofile w track "pcm_s16le" = Ok wav ->
  w_close w clip = Ok tt ->
  w_load_model w "base" = Ok model ->
  w_transcribe_file w model wav (Some "en") = Ok transcription ->
  Py.truthy transcription = true ->
  Py.getitem transcription "text" = Raise e ->
  main w (Some video) true o s
  = (Raise e,
     mkState (<[audio_path := wav]> (<[video_path := video]> (st_fs s)))
       (st_ui s ++ upload_page video ++
        [UiProgress 20; UiSuccess "  Audio extracted successfully";
         UiStatus "Step 2/5: Transcribing audio using AI...";
         UiProgress 40; UiSuccess "  Transcription completed"])
       (st_calls s ++ [CLoadModel "base"; CTranscribeFile (Some "en")])).
Proof.
  intros Hclip Htrack Hwav Hclose Hmodel Hnative Htruthy Htext.
  unfold main. run.
  erewrite extract_audio_ok; [|simpl; apply lookup_insert_eq|eassumption..].
  tidy.
  erewrite transcribe_native; [|eassumption|simpl; apply lookup_insert_eq|eassumption].
  tidy. rewrite Htruthy, Htext. tidy. unfold upload_page. by rewrite <- !app_assoc.
Qed.

Lemma main_raises_without_text_witness :
  (main (example_world (Ok (PDict {[ "segments" := PList [] ]})) (Ok "mp4") (Ok tt))
     (Some "video") true BaseFast initial).1
  = Raise (KeyError "text").
Proof.
  assert (Ht : Py.truthy (PDict {[ "segments" := PList [] ]}) = true)
    by (vm_compute; reflexivity).
  assert (Hk : Py.getitem (PDict {[ "segments" := PList [] ]}) "text"
               = Raise (KeyError "text")) by (vm_compute; reflexivity).
  rewrite (main_raises_without_text
             (example_world (Ok (PDict {[ "segments" := PList [] ]})) (Ok "mp4") (Ok tt))
             "video" BaseFast (PDict {[ "segments" := PList [] ]})
             (mkClip (Some "pcm") 25 10 "video") "pcm" "wav" (ModelHandle "base")
             (KeyError "text") initial
             eq_refl eq_refl eq_refl eq_refl eq_refl eq_refl Ht Hk).
  reflexivity.
Defined.

(** X24: when the composed text cannot be parsed back, [main] raises the
    error of the parser at the display of the sample subtitles, outside any
    handler: the subtitle file has been written and "SRT file generated" is
    the last message, but no video is burned and nothing is offered for
    download. *)
Theorem main_raises_on_unparsable_text (w : World) (video : string) (o : ModelOption)
    (t : Transcript) (clip : Clip) (track wav text : string) (model : Model)
    (e : exn) (s : State) :
  w_VideoFileClip w video = Ok clip ->
  clip_audio clip = Some track ->
  w_write_audiofile w track "pcm_s16le" = Ok wav ->
  w_close w clip = Ok tt ->
  w_load_model w "base" = Ok model ->
  w_transcribe_file w model wav (Some "en") = Ok (transcript_py t) ->
  w_compose w (imap entry_of (segments t)) = Ok text ->
  w_parse w text = Raise e ->
  main w (Some video) true o s
  = (Raise e,
     mkState (<[srt_path := text]> (<[audio_path := wav]> (<[video_path := video]> (st_fs s))))
       (st_ui s ++ progress_page video (PStr (full_text t)))
       (st_calls s ++ [CLoadModel "base"; CTranscribeFile (Some "en")])).
Proof.
  intros Hclip Htrack Hwav Hclose Hmodel Hnative Hcompose Hparse.
  unfold main. run.
  erewrite extract_audio_ok; [|simpl; apply lookup_insert_eq|eassumption..].
  tidy.
  erewrite transcribe_native; [|eassumption|simpl; apply lookup_insert_eq|eassumption].
  tidy. rewrite transcript_truthy, transcript_text.
  rewrite generate_srt_transcript, Hcompose. tidy.
  rewrite Hparse. unfold progress_page, upload_page. by rewrite <- !app_assoc.
Qed.

Lemma main_raises_on_unparsable_text_witness :
  exists e, (main garbling_world (Some "video") true BaseFast initial).1 = Raise e.
Proof.
  eexists.
  rewrite (main_raises_on_unparsable_text garbling_world "video" BaseFast hello_world
             (mkClip (Some "pcm") 25 10 "video") "pcm" "wav" "garbled" (ModelHandle "base")
             (Exn "SRTParseError" "the text is not a sequence of subtitle blocks") initial
             eq_refl eq_refl eq_refl eq_refl eq_refl eq_refl eq_refl eq_refl).
  reflexivity.
Defined.

Lemma main_after_formatting_failure_witness :
  exists s3,
    main (example_world (Ok no_text) (Ok "mp4") (Ok tt)) (Some "video") true BaseFast initial
    = (go_on ← burn_step (example_world (Ok no_text) (Ok "mp4") (Ok tt)) EmptyString;
       if go_on : bool
       then results_section (example_world (Ok no_text) (Ok "mp4") (Ok tt)) no_text BaseFast
       else mret tt) s3 /\
    st_fs s3 !! srt_path = Some EmptyString.
Proof.
  assert (Ht : Py.truthy no_text = true) by (vm_compute; reflexivity).
  assert (Hk : Py.getitem no_text "text" = Ok (PStr "hi")) by (vm_compute; reflexivity).
  assert (Hb : build_subtitles no_text = Raise (KeyError "text"))
    by (vm_compute; reflexivity).
  destruct (main_after_formatting_failure
              (example_world (Ok no_text) (Ok "mp4") (Ok tt)) "video" BaseFast no_text
              (PStr "hi") (mkClip (Some "pcm") 25 10 "video") "pcm" "wav"
              (ModelHandle "base") (KeyError "text") initial
              eq_refl eq_refl eq_refl eq_refl eq_refl eq_refl Ht Hk Hb eq_refl)
    as (s3 & H1 & H2 & _).
  exists s3. split; [exact H1 | exact H2].
Defined.

(** ** The selected model and the run *)

Lemma same_effects_refl {A} (m : M A) : same_effects m m.
Proof. by intros s. Qed.

Lemma same_effects_bind {A B} (m : M A) (f1 f2 : A -> M B) :
  (forall a, same_effects (f1 a) (f2 a)) ->
  same_effects (m ≫= f1) (m ≫= f2).
Proof.
  intros Hf s. unfold mbind, M_bind. destruct (m s) as [[a|e] s1]; [apply Hf|done].
Qed.

(** The statistics differ only in the name of the model. *)
Lemma statistics_option (w : World) (transcription : pyval) (o : ModelOption)
    (s : State) :
  statistics w transcription o s
  = match statistics w transcription BaseFast s with
    | (Ok st, s') =>
        (Ok (mkStats (video_duration st) (word_count st) (segment_count st)
               (tier_model o)), s')
    | (Raise e, s') => (Raise e, s')
    end.
Proof.
  unfold statistics. run.
  destruct (st_fs s !! video_path) as [data|]; simpl.
  - destruct (w_VideoFileClip w data) as [clip|]; simpl.
    + destruct (w_close w clip); simpl;
        destruct (Py.getitem transcription "text") as [v|]; simpl; try done;
        destruct (Py.split v); simpl; try done;
        destruct (Py.get transcription "segments" (PList [])) as [v'|]; simpl; try done;
        destruct (Py.len v'); simpl; try done; by destruct o.
    + destruct (Py.getitem transcription "text") as [v|]; simpl; try done;
        destruct (Py.split v); simpl; try done;
        destruct (Py.get transcription "segments" (PList [])) as [v'|]; simpl; try done;
        destruct (Py.len v'); simpl; try done; by destruct o.
  - destruct (Py.getitem transcription "text") as [v|]; simpl; try done;
      destruct (Py.split v); simpl; try done;
      destruct (Py.get transcription "segments" (PList [])) as [v'|]; simpl; try done;
      destruct (Py.len v'); simpl; try done; by destruct o.
Qed.

Lemma same_effects_results (w : World) (transcription : pyval) (o1 o2 : ModelOption) :
  same_effects (results_section w transcription o1) (results_section w transcription o2).
Proof.
  unfold results_section.
  repeat (apply same_effects_bind; intros ?).
  intros s. unfold mbind, M_bind.
  rewrite (statistics_option w transcription o1), (statistics_option w transcription o2).
  destruct (statistics w transcription BaseFast s) as [[st|e] s1]; [|done].
  by run.
Qed.

(** X25: the entry selected in the model box has no effect on what a run
    does: with any two selections, and whatever the libraries answer, [main]
    returns or raises alike, leaves the same files and makes the same
    library calls. *)
Theorem main_ignores_model_option (w : World) (uploaded_file : option string)
    (button : bool) (o1 o2 : ModelOption) (s : State) :
  (main w uploaded_file button o1 s).1 = (main w uploaded_file button o2 s).1 /\
  st_fs (main w uploaded_file button o1 s).2 = st_fs (main w uploaded_file button o2 s).2 /\
  st_calls (main w uploaded_file button o1 s).2
  = st_calls (main w uploaded_file button o2 s).2.
Proof.
  assert (H : same_effects (main w uploaded_file button o1) (main w uploaded_file button o2)).
  { unfold main. destruct uploaded_file as [data|]; [|apply same_effects_refl].
    do 2 (apply same_effects_bind; intros ?).
    destruct button; [|apply same_effects_refl].
    do 3 (apply same_effects_bind; intros ?).
    match goal with |- same_effects (if ?b then _ else _) _ => destruct b end;
      [|apply same_effects_refl].
    do 4 (apply same_effects_bind; intros ?).
    match goal with |- same_effects (if ?b then _ else _) _ => destruct b end;
      [|apply same_effects_refl].
    do 12 (apply same_effects_bind; intros ?).
    match goal with |- same_effects (if ?b then _ else _) _ => destruct b end;
      [apply same_effects_results|apply same_effects_refl]. }
  apply H.
Qed.
